(** * Change detection for the resources managed by the operator

    A shallow embedding of [util/equality/equality.go]: the five functions
    [DaemonsetConfigChanged], [JobConfigChanged], [DeploymentConfigChanged],
    [ClusterIpServiceChanged] and [LoadBalancerServiceChanged].

    The Go functions receive two pointers, allocate a deep copy of the
    first, assign to fields of that copy (or re-point the local variable
    [updated] at [expected]) and return a pointer and a boolean.  They are
    embedded in a small state-and-error monad over a store of resources:
    a pointer is an optional location, [nil] is [None], dereferencing [nil]
    panics, and [DeepCopy] allocates a fresh location. *)

From stdpp Require Import gmap strings list fin_maps.
From Stdlib Require Import ZArith.

Open Scope Z_scope.

(** ** Go values: pointers, the store, maps with a [nil] value *)

Module Go.

Definition loc := positive.

(** A Go pointer; [None] is [nil]. *)
Definition ptr := option loc.

(** Computations over a store of [T] that may panic ([None]). *)
Definition M (T A : Type) : Type :=
  gmap loc T → option (A * gmap loc T).

#[global] Instance M_ret {T} : MRet (M T) := λ A a h, Some (a, h).

#[global] Instance M_bind {T} : MBind (M T) := λ A B f m h,
  match m h with
  | Some (a, h') => f a h'
  | None => None
  end.

(** A run-time panic. *)
Definition panic {T A} : M T A := λ _, None.

(** [*p]: a nil or dangling pointer panics. *)
Definition deref {T} (p : ptr) : M T T := λ h,
  match p with
  | Some l => match h !! l with Some v => Some (v, h) | None => None end
  | None => None
  end.

(** [p.f]: read a field through a pointer. *)
Definition get {T A} (p : ptr) (f : T → A) : M T A :=
  v ← deref p; mret (f v).

(** [p.f = x]: write a field through a pointer. *)
Definition assign {T} (p : ptr) (f : T → T) : M T unit := λ h,
  match p with
  | Some l => match h !! l with
              | Some v => Some (tt, <[l := f v]> h)
              | None => None
              end
  | None => None
  end.

(** Allocation of a new object. *)
Definition new {T} (v : T) : M T ptr := λ h,
  let l := fresh (dom h) in Some (Some l, <[l := v]> h).

(** The generated [DeepCopy] methods: [nil] is copied to [nil], any other
    object to a newly allocated object with the same contents. *)
Definition DeepCopy {T} (p : ptr) : M T ptr :=
  match p with
  | None => mret None
  | Some _ => v ← deref p; new v
  end.

(** A Go [map[string]string]; [None] is the nil map, [Some ∅] the empty
    map that has been made. *)
Definition StringMap := option (gmap string string).

Definition is_nil (m : StringMap) : bool :=
  match m with None => true | Some _ => false end.

Definition len (m : StringMap) : nat :=
  match m with None => 0%nat | Some g => size g end.

(** [v, ok := m[k]]: reading a nil map finds nothing. *)
Definition index (m : StringMap) (k : string) : option string :=
  match m with None => None | Some g => g !! k end.

Definition keys (m : StringMap) : list string :=
  match m with None => [] | Some g => (map_to_list g).*1 end.

End Go.

Import Go.

(** ** [apiequality.Semantic.DeepEqual]

    The comparison of apimachinery: like [reflect.DeepEqual] but a nil map
    equals an empty map and a nil slice equals an empty slice; pointers are
    compared by what they point to, structs field by field.  It is a class,
    so that the specifications left open below bring their own comparison. *)

Class DeepEqual (A : Type) := deep_equal : A → A → bool.
#[global] Hint Mode DeepEqual ! : typeclass_instances.

Class DeepEqualRefl (A : Type) `{DeepEqual A} : Prop :=
  deep_equal_refl : ∀ x : A, deep_equal x x = true.
#[global] Hint Mode DeepEqualRefl ! - : typeclass_instances.

#[global] Instance string_DeepEqual : DeepEqual string := String.eqb.

#[global] Instance int_DeepEqual : DeepEqual Z := Z.eqb.

(** A pointer to a scalar ([*int32]), held by value: [None] is nil. *)
#[global] Instance pointer_DeepEqual {A} `{DeepEqual A} : DeepEqual (option A) :=
  λ p q, match p, q with
         | None, None => true
         | Some x, Some y => deep_equal x y
         | _, _ => false
         end.

(** Slices are held as lists: every operation the code applies to a slice
    ([len], [range], indexing and this comparison) reads a nil slice as an
    empty one. *)
Fixpoint slice_deep_equal {A} `{DeepEqual A} (s t : list A) : bool :=
  match s, t with
  | [], [] => true
  | x :: s', y :: t' => deep_equal x y && slice_deep_equal s' t'
  | _, _ => false
  end.

#[global] Instance slice_DeepEqual {A} `{DeepEqual A} : DeepEqual (list A) :=
  slice_deep_equal.

(** Maps: a nil map and an empty map are equal; otherwise the sizes agree
    and every key of the first has an equal value in the second. *)
Definition map_deep_equal (m1 m2 : StringMap) : bool :=
  let e1 := is_nil m1 || Nat.eqb (len m1) 0 in
  let e2 := is_nil m2 || Nat.eqb (len m2) 0 in
  if negb (Bool.eqb e1 e2) then false
  else if e1 then true
  else if negb (Nat.eqb (len m1) (len m2)) then false
  else forallb (λ k, match index m1 k, index m2 k with
                     | Some v1, Some v2 => deep_equal v1 v2
                     | _, _ => false
                     end) (keys m1).

#[global] Instance map_DeepEqual : DeepEqual StringMap := map_deep_equal.

(** ** The Kubernetes API types the functions read and write

    The types are those of [k8s.io/api]; the fields the functions read or
    write are all present, together with a representative part of the fields
    they leave alone.  Specifications and statuses that are only compared or
    copied as a whole are type parameters. *)

Module metav1.

Record ObjectMeta := {
  Name : string;
  GenerateName : string;
  Namespace : string;
  UID : string;
  ResourceVersion : string;
  Generation : Z;
  Labels : StringMap;
  Annotations : StringMap;
  Finalizers : list string
}.

Definition with_Labels (l : StringMap) (m : ObjectMeta) : ObjectMeta :=
  {| Name := Name m; GenerateName := GenerateName m;
     Namespace := Namespace m; UID := UID m;
     ResourceVersion := ResourceVersion m; Generation := Generation m;
     Labels := l; Annotations := Annotations m;
     Finalizers := Finalizers m |}.

End metav1.

Module intstr.

(** [IntOrString]: [Type] is 0 for an integer and 1 for a string. *)
Record IntOrString := {
  Type_ : Z;
  IntVal : Z;
  StrVal : string
}.

End intstr.

#[global] Instance IntOrString_DeepEqual : DeepEqual intstr.IntOrString :=
  λ a b, deep_equal (intstr.Type_ a) (intstr.Type_ b)
         && deep_equal (intstr.IntVal a) (intstr.IntVal b)
         && deep_equal (intstr.StrVal a) (intstr.StrVal b).

Module appsv1.

Section Types.
Context {DaemonSetSpec DaemonSetStatus : Type}.
Context {DeploymentSpec DeploymentStatus : Type}.

Record DaemonSet := {
  DaemonSet_ObjectMeta : metav1.ObjectMeta;
  DaemonSet_Spec : DaemonSetSpec;
  DaemonSet_Status : DaemonSetStatus
}.

Record Deployment := {
  Deployment_ObjectMeta : metav1.ObjectMeta;
  Deployment_Spec : DeploymentSpec;
  Deployment_Status : DeploymentStatus
}.

End Types.

Arguments DaemonSet : clear implicits.
Arguments Deployment : clear implicits.

End appsv1.

Module corev1.

Record ServicePort := {
  Port_Name : string;
  Protocol : string;
  AppProtocol : option string;
  Port : Z;
  TargetPort : intstr.IntOrString;
  NodePort : Z
}.

Definition with_Port_Name (x : string) (p : ServicePort) : ServicePort :=
  {| Port_Name := x; Protocol := Protocol p; AppProtocol := AppProtocol p;
     Port := Port p; TargetPort := TargetPort p; NodePort := NodePort p |}.

Definition with_Protocol (x : string) (p : ServicePort) : ServicePort :=
  {| Port_Name := Port_Name p; Protocol := x; AppProtocol := AppProtocol p;
     Port := Port p; TargetPort := TargetPort p; NodePort := NodePort p |}.

Definition with_Port (x : Z) (p : ServicePort) : ServicePort :=
  {| Port_Name := Port_Name p; Protocol := Protocol p;
     AppProtocol := AppProtocol p;
     Port := x; TargetPort := TargetPort p; NodePort := NodePort p |}.

Definition with_TargetPort (x : intstr.IntOrString) (p : ServicePort)
  : ServicePort :=
  {| Port_Name := Port_Name p; Protocol := Protocol p;
     AppProtocol := AppProtocol p;
     Port := Port p; TargetPort := x; NodePort := NodePort p |}.

Record ServiceSpec := {
  Ports : list ServicePort;
  Selector : StringMap;
  ClusterIP : string;
  Type_ : string;
  ExternalIPs : list string;
  SessionAffinity : string;
  LoadBalancerIP : string;
  ExternalName : string;
  ExternalTrafficPolicy : string;
  HealthCheckNodePort : Z
}.

Definition with_Ports (x : list ServicePort) (s : ServiceSpec) : ServiceSpec :=
  {| Ports := x; Selector := Selector s; ClusterIP := ClusterIP s;
     Type_ := Type_ s; ExternalIPs := ExternalIPs s;
     SessionAffinity := SessionAffinity s;
     LoadBalancerIP := LoadBalancerIP s; ExternalName := ExternalName s;
     ExternalTrafficPolicy := ExternalTrafficPolicy s;
     HealthCheckNodePort := HealthCheckNodePort s |}.

Definition with_Selector (x : StringMap) (s : ServiceSpec) : ServiceSpec :=
  {| Ports := Ports s; Selector := x; ClusterIP := ClusterIP s;
     Type_ := Type_ s; ExternalIPs := ExternalIPs s;
     SessionAffinity := SessionAffinity s;
     LoadBalancerIP := LoadBalancerIP s; ExternalName := ExternalName s;
     ExternalTrafficPolicy := ExternalTrafficPolicy s;
     HealthCheckNodePort := HealthCheckNodePort s |}.

Definition with_Type (x : string) (s : ServiceSpec) : ServiceSpec :=
  {| Ports := Ports s; Selector := Selector s; ClusterIP := ClusterIP s;
     Type_ := x; ExternalIPs := ExternalIPs s;
     SessionAffinity := SessionAffinity s;
     LoadBalancerIP := LoadBalancerIP s; ExternalName := ExternalName s;
     ExternalTrafficPolicy := ExternalTrafficPolicy s;
     HealthCheckNodePort := HealthCheckNodePort s |}.

Definition with_SessionAffinity (x : string) (s : ServiceSpec) : ServiceSpec :=
  {| Ports := Ports s; Selector := Selector s; ClusterIP := ClusterIP s;
     Type_ := Type_ s; ExternalIPs := ExternalIPs s;
     SessionAffinity := x;
     LoadBalancerIP := LoadBalancerIP s; ExternalName := ExternalName s;
     ExternalTrafficPolicy := ExternalTrafficPolicy s;
     HealthCheckNodePort := HealthCheckNodePort s |}.

Definition with_ExternalTrafficPolicy (x : string) (s : ServiceSpec)
  : ServiceSpec :=
  {| Ports := Ports s; Selector := Selector s; ClusterIP := ClusterIP s;
     Type_ := Type_ s; ExternalIPs := ExternalIPs s;
     SessionAffinity := SessionAffinity s;
     LoadBalancerIP := LoadBalancerIP s; ExternalName := ExternalName s;
     ExternalTrafficPolicy := x;
     HealthCheckNodePort := HealthCheckNodePort s |}.

Section Types.
Context {ServiceStatus PodSpec : Type}.

Record Service := {
  Service_ObjectMeta : metav1.ObjectMeta;
  Service_Spec : ServiceSpec;
  Service_Status : ServiceStatus
}.

Definition with_Spec (x : ServiceSpec) (s : Service) : Service :=
  {| Service_ObjectMeta := Service_ObjectMeta s; Service_Spec := x;
     Service_Status := Service_Status s |}.

Record PodTemplateSpec := {
  Template_ObjectMeta : metav1.ObjectMeta;
  Template_Spec : PodSpec
}.

End Types.

Arguments Service : clear implicits.
Arguments PodTemplateSpec : clear implicits.

End corev1.

#[global] Instance ServicePort_DeepEqual : DeepEqual corev1.ServicePort :=
  λ a b, deep_equal (corev1.Port_Name a) (corev1.Port_Name b)
         && deep_equal (corev1.Protocol a) (corev1.Protocol b)
         && deep_equal (corev1.AppProtocol a) (corev1.AppProtocol b)
         && deep_equal (corev1.Port a) (corev1.Port b)
         && deep_equal (corev1.TargetPort a) (corev1.TargetPort b)
         && deep_equal (corev1.NodePort a) (corev1.NodePort b).

Module batchv1.

Section Types.
Context {PodSpec JobStatus : Type}.

Record JobSpec := {
  Parallelism : option Z;
  Completions : option Z;
  ActiveDeadlineSeconds : option Z;
  BackoffLimit : option Z;
  ManualSelector : option bool;
  Template : corev1.PodTemplateSpec PodSpec;
  TTLSecondsAfterFinished : option Z
}.

Record Job := {
  Job_ObjectMeta : metav1.ObjectMeta;
  Job_Spec : JobSpec;
  Job_Status : JobStatus
}.

End Types.

Arguments JobSpec : clear implicits.
Arguments Job : clear implicits.

End batchv1.

(** ** The functions of package [equality] *)

Module equality.

Section Workloads.
Context {DaemonSetSpec DaemonSetStatus : Type} `{!DeepEqual DaemonSetSpec}.
Context {DeploymentSpec DeploymentStatus : Type} `{!DeepEqual DeploymentSpec}.

Abbreviation DaemonSet := (appsv1.DaemonSet DaemonSetSpec DaemonSetStatus).
Abbreviation Deployment := (appsv1.Deployment DeploymentSpec DeploymentStatus).

(** The promoted field [Labels] of the embedded [ObjectMeta]. *)
Definition DaemonSet_Labels (d : DaemonSet) : StringMap :=
  metav1.Labels (appsv1.DaemonSet_ObjectMeta d).

Definition DaemonSet_set_Labels (l : StringMap) (d : DaemonSet) : DaemonSet :=
  {| appsv1.DaemonSet_ObjectMeta :=
       metav1.with_Labels l (appsv1.DaemonSet_ObjectMeta d);
     appsv1.DaemonSet_Spec := appsv1.DaemonSet_Spec d;
     appsv1.DaemonSet_Status := appsv1.DaemonSet_Status d |}.

Definition DaemonSet_set_Spec (s : DaemonSetSpec) (d : DaemonSet) : DaemonSet :=
  {| appsv1.DaemonSet_ObjectMeta := appsv1.DaemonSet_ObjectMeta d;
     appsv1.DaemonSet_Spec := s;
     appsv1.DaemonSet_Status := appsv1.DaemonSet_Status d |}.

Definition Deployment_Labels (d : Deployment) : StringMap :=
  metav1.Labels (appsv1.Deployment_ObjectMeta d).

Definition DaemonsetConfigChanged (current expected : ptr)
  : M DaemonSet (ptr * bool) :=
  let changed := false in
  updated ← DeepCopy current;
  cl ← get current DaemonSet_Labels;
  el ← get expected DaemonSet_Labels;
  changed ← (if negb (deep_equal cl el) then
               l ← get expected DaemonSet_Labels;
               assign updated (DaemonSet_set_Labels l);;
               mret true
             else mret changed);
  cs ← get current appsv1.DaemonSet_Spec;
  es ← get expected appsv1.DaemonSet_Spec;
  changed ← (if negb (deep_equal cs es) then
               s ← get expected appsv1.DaemonSet_Spec;
               assign updated (DaemonSet_set_Spec s);;
               mret true
             else mret changed);
  if negb changed then mret (None, false)
  else mret (updated, true).

Definition DeploymentConfigChanged (current expected : ptr)
  : M Deployment (ptr * bool) :=
  let changed := false in
  updated ← DeepCopy current;
  cl ← get current Deployment_Labels;
  el ← get expected Deployment_Labels;
  '(updated, changed) ← (if negb (deep_equal cl el)
                         then mret (expected, true)
                         else mret (updated, changed));
  cs ← get current appsv1.Deployment_Spec;
  es ← get expected appsv1.Deployment_Spec;
  '(updated, changed) ← (if negb (deep_equal cs es)
                         then mret (expected, true)
                         else mret (updated, changed));
  if negb changed then mret (None, false)
  else mret (updated, true).

End Workloads.

Section Jobs.
Context {PodSpec JobStatus : Type} `{!DeepEqual PodSpec}.

(** [operatorv1alpha1.OwningContourLabel], a string constant of the
    operator's API package. *)
Variable OwningContourLabel : string.

Abbreviation Job := (batchv1.Job PodSpec JobStatus).

Definition Job_Labels (j : Job) : StringMap :=
  metav1.Labels (batchv1.Job_ObjectMeta j).

Definition Job_Spec_Parallelism (j : Job) : option Z :=
  batchv1.Parallelism (batchv1.Job_Spec j).

Definition Job_Spec_BackoffLimit (j : Job) : option Z :=
  batchv1.BackoffLimit (batchv1.Job_Spec j).

Definition Job_Spec_Template_Labels (j : Job) : StringMap :=
  metav1.Labels
    (corev1.Template_ObjectMeta (batchv1.Template (batchv1.Job_Spec j))).

Definition Job_Spec_Template_Spec (j : Job) : PodSpec :=
  corev1.Template_Spec (batchv1.Template (batchv1.Job_Spec j)).

Definition JobConfigChanged (current expected : ptr)
  : M Job (ptr * bool) :=
  let changed := false in
  updated ← DeepCopy current;
  cl ← get current Job_Labels;
  el ← get expected Job_Labels;
  '(updated, changed) ← (if negb (deep_equal cl el)
                         then mret (expected, true)
                         else mret (updated, changed));
  cp ← get current Job_Spec_Parallelism;
  ep ← get expected Job_Spec_Parallelism;
  '(updated, changed) ← (if negb (deep_equal cp ep)
                         then mret (expected, true)
                         else mret (updated, changed));
  cb ← get current Job_Spec_BackoffLimit;
  eb ← get expected Job_Spec_BackoffLimit;
  '(updated, changed) ← (if negb (deep_equal cb eb)
                         then mret (expected, true)
                         else mret (updated, changed));
  ctl ← get current Job_Spec_Template_Labels;
  '(updated, changed) ←
     (if negb (is_nil ctl) then
        ctl' ← get current Job_Spec_Template_Labels;
        match index ctl' OwningContourLabel with
        | None => mret (expected, true)
        | Some _ => mret (updated, changed)
        end
      else mret (updated, changed));
  cs ← get current Job_Spec_Template_Spec;
  es ← get expected Job_Spec_Template_Spec;
  '(updated, changed) ← (if negb (deep_equal cs es)
                         then mret (expected, true)
                         else mret (updated, changed));
  if negb changed then mret (None, false)
  else mret (updated, true).

End Jobs.

Section Services.
Context {ServiceStatus : Type}.

Abbreviation Service := (corev1.Service ServiceStatus).

Definition Service_Spec_Ports (s : Service) : list corev1.ServicePort :=
  corev1.Ports (corev1.Service_Spec s).

Definition Service_Spec_Selector (s : Service) : StringMap :=
  corev1.Selector (corev1.Service_Spec s).

Definition Service_Spec_SessionAffinity (s : Service) : string :=
  corev1.SessionAffinity (corev1.Service_Spec s).

Definition Service_Spec_Type (s : Service) : string :=
  corev1.Type_ (corev1.Service_Spec s).

Definition Service_Spec_ExternalTrafficPolicy (s : Service) : string :=
  corev1.ExternalTrafficPolicy (corev1.Service_Spec s).

Definition Service_set_Ports (x : list corev1.ServicePort) (s : Service)
  : Service :=
  corev1.with_Spec (corev1.with_Ports x (corev1.Service_Spec s)) s.

Definition Service_set_Selector (x : StringMap) (s : Service) : Service :=
  corev1.with_Spec (corev1.with_Selector x (corev1.Service_Spec s)) s.

Definition Service_set_SessionAffinity (x : string) (s : Service) : Service :=
  corev1.with_Spec (corev1.with_SessionAffinity x (corev1.Service_Spec s)) s.

Definition Service_set_Type (x : string) (s : Service) : Service :=
  corev1.with_Spec (corev1.with_Type x (corev1.Service_Spec s)) s.

Definition Service_set_ExternalTrafficPolicy (x : string) (s : Service)
  : Service :=
  corev1.with_Spec
    (corev1.with_ExternalTrafficPolicy x (corev1.Service_Spec s)) s.

(** [p.Spec.Ports[i]]: an index out of range panics. *)
Definition get_port {A} (p : ptr) (i : nat) (f : corev1.ServicePort → A)
  : M Service A :=
  ps ← get p Service_Spec_Ports;
  match (ps : list corev1.ServicePort) !! i with
  | Some x => mret (f x)
  | None => panic
  end.

(** [p.Spec.Ports[i].f = x]: the element is updated in place. *)
Definition assign_port (p : ptr) (i : nat)
    (f : corev1.ServicePort → corev1.ServicePort) : M Service unit :=
  ps ← get p Service_Spec_Ports;
  match (ps : list corev1.ServicePort) !! i with
  | Some x => assign p (Service_set_Ports (<[i := f x]> ps))
  | None => panic
  end.

Definition ClusterIpServiceChanged (current expected : ptr)
  : M Service (ptr * bool) :=
  let changed := false in
  updated ← DeepCopy current;
  cp ← get current Service_Spec_Ports;
  ep ← get expected Service_Spec_Ports;
  changed ←
    (if negb (Nat.eqb (length cp) (length ep)) then
       x ← get expected Service_Spec_Ports;
       assign updated (Service_set_Ports x);;
       mret true
     else
       cp ← get current Service_Spec_Ports;
       ep ← get expected Service_Spec_Ports;
       if negb (deep_equal cp ep) then
         x ← get expected Service_Spec_Ports;
         assign updated (Service_set_Ports x);;
         mret true
       else mret changed);
  cs ← get current Service_Spec_Selector;
  es ← get expected Service_Spec_Selector;
  changed ← (if negb (deep_equal cs es) then
               x ← get expected Service_Spec_Selector;
               assign updated (Service_set_Selector x);;
               mret true
             else mret changed);
  ca ← get current Service_Spec_SessionAffinity;
  ea ← get expected Service_Spec_SessionAffinity;
  changed ← (if negb (deep_equal ca ea) then
               x ← get expected Service_Spec_SessionAffinity;
               assign updated (Service_set_SessionAffinity x);;
               mret true
             else mret changed);
  ct ← get current Service_Spec_Type;
  et ← get expected Service_Spec_Type;
  changed ← (if negb (deep_equal ct et) then
               x ← get expected Service_Spec_Type;
               assign updated (Service_set_Type x);;
               mret true
             else mret changed);
  if negb changed then mret (None, false)
  else mret (updated, true).

(** The body of [for i, p := range current.Spec.Ports], over the elements
    [ps] that remain, the next of them at index [i]. *)
Fixpoint range_Ports (updated expected : ptr) (i : nat)
    (ps : list corev1.ServicePort) (changed : bool) : M Service bool :=
  match ps with
  | [] => mret changed
  | p :: ps' =>
    en ← get_port expected i corev1.Port_Name;
    changed ← (if negb (deep_equal (corev1.Port_Name p) en) then
                 x ← get_port expected i corev1.Port_Name;
                 assign_port updated i (corev1.with_Port_Name x);;
                 mret true
               else mret changed);
    er ← get_port expected i corev1.Protocol;
    changed ← (if negb (deep_equal (corev1.Protocol p) er) then
                 x ← get_port expected i corev1.Protocol;
                 assign_port updated i (corev1.with_Protocol x);;
                 mret true
               else mret changed);
    eo ← get_port expected i corev1.Port;
    changed ← (if negb (deep_equal (corev1.Port p) eo) then
                 x ← get_port expected i corev1.Port;
                 assign_port updated i (corev1.with_Port x);;
                 mret true
               else mret changed);
    et ← get_port expected i corev1.TargetPort;
    changed ← (if negb (deep_equal (corev1.TargetPort p) et) then
                 x ← get_port expected i corev1.TargetPort;
                 assign_port updated i (corev1.with_TargetPort x);;
                 mret true
               else mret changed);
    range_Ports updated expected (S i) ps' changed
  end.

Definition LoadBalancerServiceChanged (current expected : ptr)
  : M Service (ptr * bool) :=
  let changed := false in
  updated ← DeepCopy current;
  cp ← get current Service_Spec_Ports;
  ep ← get expected Service_Spec_Ports;
  changed ←
    (if negb (Nat.eqb (length cp) (length ep)) then
       x ← get expected Service_Spec_Ports;
       assign updated (Service_set_Ports x);;
       mret true
     else
       ps ← get current Service_Spec_Ports;
       range_Ports updated expected 0 ps changed);
  cs ← get current Service_Spec_Selector;
  es ← get expected Service_Spec_Selector;
  changed ← (if negb (deep_equal cs es) then
               x ← get expected Service_Spec_Selector;
               assign updated (Service_set_Selector x);;
               mret true
             else mret changed);
  ce ← get current Service_Spec_ExternalTrafficPolicy;
  ee ← get expected Service_Spec_ExternalTrafficPolicy;
  changed ← (if negb (deep_equal ce ee) then
               x ← get expected Service_Spec_ExternalTrafficPolicy;
               assign updated (Service_set_ExternalTrafficPolicy x);;
               mret true
             else mret changed);
  ca ← get current Service_Spec_SessionAffinity;
  ea ← get expected Service_Spec_SessionAffinity;
  changed ← (if negb (deep_equal ca ea) then
               x ← get expected Service_Spec_SessionAffinity;
               assign updated (Service_set_SessionAffinity x);;
               mret true
             else mret changed);
  ct ← get current Service_Spec_Type;
  et ← get expected Service_Spec_Type;
  changed ← (if negb (deep_equal ct et) then
               x ← get expected Service_Spec_Type;
               assign updated (Service_set_Type x);;
               mret true
             else mret changed);
  if negb changed then mret (None, false)
  else mret (updated, true).

End Services.

End equality.

Import equality.

(** ** What the functions compute

    The comparisons each function makes and the value it leaves in the copy,
    as functions of the two snapshots; the lemmas [*_run] below prove that
    the functions above compute exactly these. *)

Section JobSummary.
Context {PodSpec JobStatus : Type} `{!DeepEqual PodSpec}.
Variable OwningContourLabel : string.

Abbreviation Job := (batchv1.Job PodSpec JobStatus).

(** The test of lines 72-73: the template labels of [current] are not nil
    and do not hold the owning label. *)
Definition owner_label_missing (labels : StringMap) : bool :=
  negb (is_nil labels)
  && match index labels OwningContourLabel with
     | None => true
     | Some _ => false
     end.

(** The comparisons of [JobConfigChanged], in the order of the code. *)
Definition Job_differs (cv ev : Job) : bool :=
  negb (deep_equal (Job_Labels cv) (Job_Labels ev))
  || negb (deep_equal (Job_Spec_Parallelism cv) (Job_Spec_Parallelism ev))
  || negb (deep_equal (Job_Spec_BackoffLimit cv) (Job_Spec_BackoffLimit ev))
  || owner_label_missing (Job_Spec_Template_Labels cv)
  || negb (deep_equal (Job_Spec_Template_Spec cv) (Job_Spec_Template_Spec ev)).

End JobSummary.

Section ServiceSummary.
Context {ServiceStatus : Type}.

Abbreviation Service := (corev1.Service ServiceStatus).
Implicit Types (p ep up : corev1.ServicePort).

(** What [ClusterIpServiceChanged] detects on the port lists. *)
Definition ClusterIp_ports_differ (cp ep : list corev1.ServicePort) : bool :=
  if negb (Nat.eqb (length cp) (length ep)) then true
  else negb (deep_equal cp ep).

(** One port of [current] against the port of [expected] at the same index:
    whether the loop body detects a difference, and what it leaves in the
    port [up] of [updated]. *)
Definition port_differs p ep : bool :=
  negb (deep_equal (corev1.Port_Name p) (corev1.Port_Name ep))
  || negb (deep_equal (corev1.Protocol p) (corev1.Protocol ep))
  || negb (deep_equal (corev1.Port p) (corev1.Port ep))
  || negb (deep_equal (corev1.TargetPort p) (corev1.TargetPort ep)).

Definition patch_port p ep up : corev1.ServicePort :=
  let up := if negb (deep_equal (corev1.Port_Name p) (corev1.Port_Name ep))
            then corev1.with_Port_Name (corev1.Port_Name ep) up else up in
  let up := if negb (deep_equal (corev1.Protocol p) (corev1.Protocol ep))
            then corev1.with_Protocol (corev1.Protocol ep) up else up in
  let up := if negb (deep_equal (corev1.Port p) (corev1.Port ep))
            then corev1.with_Port (corev1.Port ep) up else up in
  if negb (deep_equal (corev1.TargetPort p) (corev1.TargetPort ep))
  then corev1.with_TargetPort (corev1.TargetPort ep) up else up.

Fixpoint ports_differ (ps eps : list corev1.ServicePort) : bool :=
  match ps, eps with
  | p :: ps', ep :: eps' => port_differs p ep || ports_differ ps' eps'
  | _, _ => false
  end.

Fixpoint patch_ports (ps eps ups : list corev1.ServicePort)
  : list corev1.ServicePort :=
  match ps, eps, ups with
  | p :: ps', ep :: eps', up :: ups' =>
    patch_port p ep up :: patch_ports ps' eps' ups'
  | _, _, _ => []
  end.

(** What [LoadBalancerServiceChanged] detects on the port lists, and the
    port list it leaves in [updated]. *)
Definition LoadBalancer_ports_differ (cp ep : list corev1.ServicePort) : bool :=
  if negb (Nat.eqb (length cp) (length ep)) then true
  else ports_differ cp ep.

Definition LoadBalancer_ports (cp ep : list corev1.ServicePort)
  : list corev1.ServicePort :=
  if negb (Nat.eqb (length cp) (length ep)) then ep
  else patch_ports cp ep cp.

End ServiceSummary.

(** ** Snapshots that differ in one field

    Replacing a field the functions never assign, to state that two
    snapshots differ in that field only. *)

Section Differences.
Context {PodSpec JobStatus ServiceStatus : Type}.

Definition Job_set_Completions (x : option Z)
    (j : batchv1.Job PodSpec JobStatus) : batchv1.Job PodSpec JobStatus :=
  let s := batchv1.Job_Spec j in
  {| batchv1.Job_ObjectMeta := batchv1.Job_ObjectMeta j;
     batchv1.Job_Spec :=
       {| batchv1.Parallelism := batchv1.Parallelism s;
          batchv1.Completions := x;
          batchv1.ActiveDeadlineSeconds := batchv1.ActiveDeadlineSeconds s;
          batchv1.BackoffLimit := batchv1.BackoffLimit s;
          batchv1.ManualSelector := batchv1.ManualSelector s;
          batchv1.Template := batchv1.Template s;
          batchv1.TTLSecondsAfterFinished :=
            batchv1.TTLSecondsAfterFinished s |};
     batchv1.Job_Status := batchv1.Job_Status j |}.

Definition Job_set_Template_Labels (x : StringMap)
    (j : batchv1.Job PodSpec JobStatus) : batchv1.Job PodSpec JobStatus :=
  let s := batchv1.Job_Spec j in
  let t := batchv1.Template s in
  {| batchv1.Job_ObjectMeta := batchv1.Job_ObjectMeta j;
     batchv1.Job_Spec :=
       {| batchv1.Parallelism := batchv1.Parallelism s;
          batchv1.Completions := batchv1.Completions s;
          batchv1.ActiveDeadlineSeconds := batchv1.ActiveDeadlineSeconds s;
          batchv1.BackoffLimit := batchv1.BackoffLimit s;
          batchv1.ManualSelector := batchv1.ManualSelector s;
          batchv1.Template :=
            {| corev1.Template_ObjectMeta :=
                 metav1.with_Labels x (corev1.Template_ObjectMeta t);
               corev1.Template_Spec := corev1.Template_Spec t |};
          batchv1.TTLSecondsAfterFinished :=
            batchv1.TTLSecondsAfterFinished s |};
     batchv1.Job_Status := batchv1.Job_Status j |}.

Definition with_NodePort (x : Z) (p : corev1.ServicePort)
  : corev1.ServicePort :=
  {| corev1.Port_Name := corev1.Port_Name p;
     corev1.Protocol := corev1.Protocol p;
     corev1.AppProtocol := corev1.AppProtocol p;
     corev1.Port := corev1.Port p;
     corev1.TargetPort := corev1.TargetPort p;
     corev1.NodePort := x |}.

Definition with_ClusterIP (x : string) (s : corev1.ServiceSpec)
  : corev1.ServiceSpec :=
  {| corev1.Ports := corev1.Ports s; corev1.Selector := corev1.Selector s;
     corev1.ClusterIP := x;
     corev1.Type_ := corev1.Type_ s; corev1.ExternalIPs := corev1.ExternalIPs s;
     corev1.SessionAffinity := corev1.SessionAffinity s;
     corev1.LoadBalancerIP := corev1.LoadBalancerIP s;
     corev1.ExternalName := corev1.ExternalName s;
     corev1.ExternalTrafficPolicy := corev1.ExternalTrafficPolicy s;
     corev1.HealthCheckNodePort := corev1.HealthCheckNodePort s |}.

Definition with_HealthCheckNodePort (x : Z) (s : corev1.ServiceSpec)
  : corev1.ServiceSpec :=
  {| corev1.Ports := corev1.Ports s; corev1.Selector := corev1.Selector s;
     corev1.ClusterIP := corev1.ClusterIP s;
     corev1.Type_ := corev1.Type_ s; corev1.ExternalIPs := corev1.ExternalIPs s;
     corev1.SessionAffinity := corev1.SessionAffinity s;
     corev1.LoadBalancerIP := corev1.LoadBalancerIP s;
     corev1.ExternalName := corev1.ExternalName s;
     corev1.ExternalTrafficPolicy := corev1.ExternalTrafficPolicy s;
     corev1.HealthCheckNodePort := x |}.

Definition Service_set_ClusterIP (x : string)
    (s : corev1.Service ServiceStatus) : corev1.Service ServiceStatus :=
  corev1.with_Spec (with_ClusterIP x (corev1.Service_Spec s)) s.

Definition Service_set_HealthCheckNodePort (x : Z)
    (s : corev1.Service ServiceStatus) : corev1.Service ServiceStatus :=
  corev1.with_Spec (with_HealthCheckNodePort x (corev1.Service_Spec s)) s.

(** The metadata [m'] is [m] but for the labels. *)
Definition same_but_Labels (m m' : metav1.ObjectMeta) : Prop :=
  metav1.Name m' = metav1.Name m
  ∧ metav1.GenerateName m' = metav1.GenerateName m
  ∧ metav1.Namespace m' = metav1.Namespace m
  ∧ metav1.UID m' = metav1.UID m
  ∧ metav1.ResourceVersion m' = metav1.ResourceVersion m
  ∧ metav1.Generation m' = metav1.Generation m
  ∧ metav1.Annotations m' = metav1.Annotations m
  ∧ metav1.Finalizers m' = metav1.Finalizers m.

(** [q] is [p] but for the node port. *)
Definition same_but_NodePort (p q : corev1.ServicePort) : Prop :=
  q = with_NodePort (corev1.NodePort q) p.

End Differences.

(** ** Concrete snapshots

    Small resources on which the functions are run.  A workload
    specification is instantiated by a list of container images, a status by
    a counter. *)

Module Sample.

Definition OwningContourLabel : string :=
  "contour.operator.projectcontour.io/owning-contour".

Definition meta (name : string) (labels annotations : StringMap)
  : metav1.ObjectMeta :=
  {| metav1.Name := name; metav1.GenerateName := "";
     metav1.Namespace := "projectcontour"; metav1.UID := "";
     metav1.ResourceVersion := "1"; metav1.Generation := 1;
     metav1.Labels := labels; metav1.Annotations := annotations;
     metav1.Finalizers := [] |}.

Definition labels (k v : string) : StringMap := Some {[ k := v ]}.

Definition DaemonSet := appsv1.DaemonSet (list string) Z.
Definition Deployment := appsv1.Deployment (list string) Z.
Definition Job := batchv1.Job (list string) Z.
Definition Service := corev1.Service Z.

Definition daemonset (name : string) (l a : StringMap) (images : list string)
  : DaemonSet :=
  {| appsv1.DaemonSet_ObjectMeta := meta name l a;
     appsv1.DaemonSet_Spec := images;
     appsv1.DaemonSet_Status := 0 |}.

Definition deployment (name : string) (l a : StringMap)
    (images : list string) : Deployment :=
  {| appsv1.Deployment_ObjectMeta := meta name l a;
     appsv1.Deployment_Spec := images;
     appsv1.Deployment_Status := 0 |}.

Definition job (l : StringMap) (completions : option Z)
    (template_labels : StringMap) : Job :=
  {| batchv1.Job_ObjectMeta := meta "contour-certgen" l None;
     batchv1.Job_Spec :=
       {| batchv1.Parallelism := Some 1;
          batchv1.Completions := completions;
          batchv1.ActiveDeadlineSeconds := None;
          batchv1.BackoffLimit := Some 1;
          batchv1.ManualSelector := None;
          batchv1.Template :=
            {| corev1.Template_ObjectMeta := meta "" template_labels None;
               corev1.Template_Spec := ["contour"%string] |};
          batchv1.TTLSecondsAfterFinished := None |};
     batchv1.Job_Status := 0 |}.

Definition port (name : string) (number target node : Z)
  : corev1.ServicePort :=
  {| corev1.Port_Name := name; corev1.Protocol := "TCP";
     corev1.AppProtocol := None; corev1.Port := number;
     corev1.TargetPort :=
       {| intstr.Type_ := 0; intstr.IntVal := target; intstr.StrVal := "" |};
     corev1.NodePort := node |}.

Definition service (type clusterIP : string) (health : Z)
    (ports : list corev1.ServicePort) : Service :=
  {| corev1.Service_ObjectMeta := meta "envoy" None None;
     corev1.Service_Spec :=
       {| corev1.Ports := ports;
          corev1.Selector := labels "app" "envoy";
          corev1.ClusterIP := clusterIP;
          corev1.Type_ := type;
          corev1.ExternalIPs := [];
          corev1.SessionAffinity := "None";
          corev1.LoadBalancerIP := "";
          corev1.ExternalName := "";
          corev1.ExternalTrafficPolicy := "Local";
          corev1.HealthCheckNodePort := health |};
     corev1.Service_Status := 0 |}.

(** A store with [current] at location 1 and [expected] at location 2. *)
Definition store {T} (current expected : T) : gmap loc T :=
  <[2%positive := expected]> (<[1%positive := current]> ∅).

End Sample.

(** ** Running the store monad *)

Section Run.
Context {T : Type}.
Implicit Types (h : gmap loc T) (l : loc) (v : T).

Lemma run_bind {A B} (m : M T A) (f : A → M T B) h :
  (m ≫= f) h = match m h with Some (a, h') => f a h' | None => None end.
Proof. reflexivity. Qed.

Lemma run_ret {A} (a : A) h : (mret a : M T A) h = Some (a, h).
Proof. reflexivity. Qed.

Lemma run_get {A} (f : T → A) h l v :
  h !! l = Some v → get (Some l) f h = Some (f v, h).
Proof. intros E. unfold get, deref. rewrite run_bind, E. reflexivity. Qed.

Lemma run_assign (f : T → T) h l v :
  h !! l = Some v → assign (Some l) f h = Some (tt, <[l := f v]> h).
Proof. intros E. unfold assign. rewrite E. reflexivity. Qed.

Lemma lookup_fresh h : h !! fresh (dom h) = None.
Proof. apply not_elem_of_dom, is_fresh. Qed.

Lemma fresh_ne h l v : h !! l = Some v → fresh (dom h) ≠ l.
Proof. intros E Hl. rewrite <- Hl, lookup_fresh in E. discriminate. Qed.

Lemma run_DeepCopy h l v :
  h !! l = Some v →
  DeepCopy (Some l) h = Some (Some (fresh (dom h)), <[fresh (dom h) := v]> h).
Proof.
  intros E. unfold DeepCopy, new, deref. rewrite run_bind, E. reflexivity.
Qed.

End Run.

(** One step of a run: a read, a write or a return, with the lookups in the
    store settled from the hypotheses. *)
Ltac lookup_store :=
  rewrite ?insert_insert_eq;
  repeat first [ rewrite lookup_insert_eq | rewrite lookup_insert_ne by done ];
  first [ eassumption | reflexivity ].

Ltac run_step :=
  cbn [negb andb orb]; rewrite ?run_bind;
  first [ rewrite run_ret
        | erewrite run_get by lookup_store
        | erewrite run_assign by lookup_store
        | erewrite run_DeepCopy by lookup_store ];
  cbv beta iota; rewrite ?insert_insert_eq.

Section WorkloadRuns.
Context {DaemonSetSpec DaemonSetStatus : Type} `{!DeepEqual DaemonSetSpec}.
Context {DeploymentSpec DeploymentStatus : Type} `{!DeepEqual DeploymentSpec}.

Abbreviation DaemonSet := (appsv1.DaemonSet DaemonSetSpec DaemonSetStatus).
Abbreviation Deployment := (appsv1.Deployment DeploymentSpec DeploymentStatus).

Lemma DaemonsetConfigChanged_run (h : gmap loc DaemonSet) c e cv ev :
  h !! c = Some cv → h !! e = Some ev →
  let u := fresh (dom h) in
  let dl := negb (deep_equal (DaemonSet_Labels cv) (DaemonSet_Labels ev)) in
  let ds := negb (deep_equal (appsv1.DaemonSet_Spec cv) (appsv1.DaemonSet_Spec ev)) in
  let uv1 := if dl then DaemonSet_set_Labels (DaemonSet_Labels ev) cv else cv in
  let uv2 := if ds then DaemonSet_set_Spec (appsv1.DaemonSet_Spec ev) uv1 else uv1 in
  DaemonsetConfigChanged (Some c) (Some e) h
  = Some ((if dl || ds then Some u else None,
           dl || ds), <[u := uv2]> h).
Proof.
  intros Hc He u dl ds uv1 uv2.
  pose proof (fresh_ne _ _ _ Hc) as Huc. pose proof (fresh_ne _ _ _ He) as Hue.
  fold u in Huc, Hue.
  unfold DaemonsetConfigChanged.
  do 3 run_step. fold u. fold dl.
  subst uv2 uv1. destruct dl; repeat run_step; fold ds; destruct ds; repeat run_step; reflexivity.
Qed.

Lemma DeploymentConfigChanged_run (h : gmap loc Deployment) c e cv ev :
  h !! c = Some cv → h !! e = Some ev →
  let dl := negb (deep_equal (Deployment_Labels cv) (Deployment_Labels ev)) in
  let ds := negb (deep_equal (appsv1.Deployment_Spec cv)
                             (appsv1.Deployment_Spec ev)) in
  DeploymentConfigChanged (Some c) (Some e) h
  = Some ((if dl || ds then Some e else None,
           dl || ds),
          <[fresh (dom h) := cv]> h).
Proof.
  intros Hc He dl ds.
  pose proof (fresh_ne _ _ _ Hc) as Huc. pose proof (fresh_ne _ _ _ He) as Hue.
  unfold DeploymentConfigChanged.
  do 3 run_step. fold dl.
  destruct dl; repeat run_step; fold ds; destruct ds; repeat run_step;
    reflexivity.
Qed.

End WorkloadRuns.

Section JobRuns.
Context {PodSpec JobStatus : Type} `{!DeepEqual PodSpec}.
Variable OwningContourLabel : string.

Abbreviation Job := (batchv1.Job PodSpec JobStatus).

Lemma JobConfigChanged_run (h : gmap loc Job) c e cv ev :
  h !! c = Some cv → h !! e = Some ev →
  JobConfigChanged OwningContourLabel (Some c) (Some e) h
  = Some ((if Job_differs OwningContourLabel cv ev then Some e else None,
           Job_differs OwningContourLabel cv ev),
          <[fresh (dom h) := cv]> h).
Proof.
  intros Hc He.
  pose proof (fresh_ne _ _ _ Hc) as Huc. pose proof (fresh_ne _ _ _ He) as Hue.
  unfold JobConfigChanged, Job_differs, owner_label_missing.
  do 3 run_step.
  destruct (deep_equal (Job_Labels cv) (Job_Labels ev));
    repeat run_step;
    destruct (deep_equal (Job_Spec_Parallelism cv) (Job_Spec_Parallelism ev));
    repeat run_step;
    destruct (deep_equal (Job_Spec_BackoffLimit cv) (Job_Spec_BackoffLimit ev));
    repeat run_step;
    destruct (is_nil (Job_Spec_Template_Labels cv));
    repeat run_step;
    destruct (index (Job_Spec_Template_Labels cv) OwningContourLabel);
    repeat run_step;
    destruct (deep_equal (Job_Spec_Template_Spec cv)
                         (Job_Spec_Template_Spec ev));
    repeat run_step; cbn [negb andb orb]; reflexivity.
Qed.

End JobRuns.

Section ServiceRuns.
Context {ServiceStatus : Type}.

Abbreviation Service := (corev1.Service ServiceStatus).
Implicit Types (h : gmap loc Service) (p ep up : corev1.ServicePort).

Lemma ClusterIpServiceChanged_run h c e cv ev :
  h !! c = Some cv → h !! e = Some ev →
  let u := fresh (dom h) in
  let dp := ClusterIp_ports_differ (Service_Spec_Ports cv)
                                   (Service_Spec_Ports ev) in
  let ds := negb (deep_equal (Service_Spec_Selector cv)
                             (Service_Spec_Selector ev)) in
  let da := negb (deep_equal (Service_Spec_SessionAffinity cv)
                             (Service_Spec_SessionAffinity ev)) in
  let dt := negb (deep_equal (Service_Spec_Type cv) (Service_Spec_Type ev)) in
  let uv1 := if dp then Service_set_Ports (Service_Spec_Ports ev) cv else cv in
  let uv2 := if ds then Service_set_Selector (Service_Spec_Selector ev) uv1
             else uv1 in
  let uv3 := if da
             then Service_set_SessionAffinity (Service_Spec_SessionAffinity ev) uv2
             else uv2 in
  let uv4 := if dt then Service_set_Type (Service_Spec_Type ev) uv3 else uv3 in
  ClusterIpServiceChanged (Some c) (Some e) h
  = Some ((if dp || ds || da || dt then Some u else None,
           dp || ds || da || dt),
          <[u := uv4]> h).
Proof.
  intros Hc He u dp ds da dt uv1 uv2 uv3 uv4.
  pose proof (fresh_ne _ _ _ Hc) as Huc. pose proof (fresh_ne _ _ _ He) as Hue.
  fold u in Huc, Hue.
  unfold ClusterIpServiceChanged.
  do 3 run_step. fold u.
  subst uv4 uv3 uv2 uv1. subst dp. unfold ClusterIp_ports_differ.
  destruct (negb (Nat.eqb _ _)); repeat run_step;
    [| destruct (deep_equal (Service_Spec_Ports cv) (Service_Spec_Ports ev));
       repeat run_step ];
    fold ds; destruct ds; repeat run_step;
    fold da; destruct da; repeat run_step;
    fold dt; destruct dt; repeat run_step; reflexivity.
Qed.

Lemma run_get_port {A} (f : corev1.ServicePort → A) h l v i p :
  h !! l = Some v → Service_Spec_Ports v !! i = Some p →
  get_port (Some l) i f h = Some (f p, h).
Proof.
  intros Hl Hi. unfold get_port. run_step. rewrite Hi. reflexivity.
Qed.

Lemma run_assign_port (g : corev1.ServicePort → corev1.ServicePort) h l v i p :
  h !! l = Some v → Service_Spec_Ports v !! i = Some p →
  assign_port (Some l) i g h
  = Some (tt, <[l := Service_set_Ports (<[i := g p]> (Service_Spec_Ports v)) v]> h).
Proof.
  intros Hl Hi. unfold assign_port. run_step. rewrite Hi.
  erewrite run_assign by eassumption. reflexivity.
Qed.

Lemma Service_set_Ports_id (v : Service) :
  Service_set_Ports (Service_Spec_Ports v) v = v.
Proof. destruct v as [m [] st]. reflexivity. Qed.

(** One guarded assignment of the loop body. *)
Lemma run_patch_field {A} (b changed : bool) (f : corev1.ServicePort → A)
    (g : A → corev1.ServicePort → corev1.ServicePort) h u e uv ev i up ep :
  u ≠ e → h !! e = Some ev → h !! u = Some uv →
  Service_Spec_Ports ev !! i = Some ep →
  Service_Spec_Ports uv !! i = Some up →
  (if b then x ← get_port (Some e) i f;
             assign_port (Some u) i (g x);; mret true
   else mret changed) h
  = Some (if b then true else changed,
          <[u := Service_set_Ports
                   (<[i := if b then g (f ep) up else up]>
                      (Service_Spec_Ports uv)) uv]> h).
Proof.
  intros Hue He Hu Hep Hup. destruct b.
  - rewrite run_bind. erewrite run_get_port by eassumption.
    rewrite run_bind. erewrite run_assign_port by eassumption.
    reflexivity.
  - rewrite run_ret, list_insert_id, Service_set_Ports_id, insert_id by done.
    reflexivity.
Qed.

Lemma range_Ports_run u e ev :
  u ≠ e →
  ∀ ps eps ups i epre upre uv changed h,
  h !! e = Some ev → h !! u = Some uv →
  Service_Spec_Ports ev = epre ++ eps → length epre = i →
  Service_Spec_Ports uv = upre ++ ups → length upre = i →
  length eps = length ps → length ups = length ps →
  range_Ports (Some u) (Some e) i ps changed h
  = Some (changed || ports_differ ps eps,
          <[u := Service_set_Ports (upre ++ patch_ports ps eps ups) uv]> h).
Proof.
  intros Hue. induction ps as [|p ps IH];
    intros eps ups i epre upre uv changed h He Hu Hev Hi Huv Hi' Hle Hlu.
  - destruct eps; [|discriminate]. destruct ups; [|discriminate].
    cbn [range_Ports patch_ports ports_differ].
    rewrite run_ret, orb_false_r, <- Huv, Service_set_Ports_id, insert_id by done.
    reflexivity.
  - destruct eps as [|ep eps]; [discriminate|].
    destruct ups as [|up ups]; [discriminate|].
    assert (Service_Spec_Ports ev !! i = Some ep) as Hep.
    { rewrite Hev, <- Hi. apply list_lookup_middle. reflexivity. }
    assert (Service_Spec_Ports uv !! i = Some up) as Hup.
    { rewrite Huv, <- Hi'. apply list_lookup_middle. reflexivity. }
    assert (i < length (Service_Spec_Ports uv))%nat as Hlt.
    { eapply lookup_lt_Some; eassumption. }
    cbn [range_Ports].
    rewrite run_bind. erewrite run_get_port by eassumption.
    rewrite run_bind. erewrite run_patch_field by eassumption.
    set (b1 := negb (deep_equal (corev1.Port_Name p) (corev1.Port_Name ep))).
    rewrite run_bind.
    erewrite run_get_port by (first [by rewrite lookup_insert_ne | eassumption]).
    rewrite run_bind.
    erewrite run_patch_field;
      [ | done | by rewrite lookup_insert_ne | apply lookup_insert_eq | done
        | cbn; by apply list_lookup_insert_eq ].
    set (b2 := negb (deep_equal (corev1.Protocol p) (corev1.Protocol ep))).
    rewrite insert_insert_eq. cbn [Service_set_Ports Service_Spec_Ports
      corev1.with_Spec corev1.with_Ports corev1.Service_Spec corev1.Ports].
    rewrite list_insert_insert_eq.
    rewrite run_bind.
    erewrite run_get_port by (first [by rewrite lookup_insert_ne | eassumption]).
    rewrite run_bind.
    erewrite run_patch_field;
      [ | done | by rewrite lookup_insert_ne | apply lookup_insert_eq | done
        | cbn; by apply list_lookup_insert_eq ].
    set (b3 := negb (deep_equal (corev1.Port p) (corev1.Port ep))).
    rewrite insert_insert_eq. cbn [Service_set_Ports Service_Spec_Ports
      corev1.with_Spec corev1.with_Ports corev1.Service_Spec corev1.Ports].
    rewrite list_insert_insert_eq.
    rewrite run_bind.
    erewrite run_get_port by (first [by rewrite lookup_insert_ne | eassumption]).
    rewrite run_bind.
    erewrite run_patch_field;
      [ | done | by rewrite lookup_insert_ne | apply lookup_insert_eq | done
        | cbn; by apply list_lookup_insert_eq ].
    set (b4 := negb (deep_equal (corev1.TargetPort p) (corev1.TargetPort ep))).
    rewrite insert_insert_eq. cbn [Service_set_Ports Service_Spec_Ports
      corev1.with_Spec corev1.with_Ports corev1.Service_Spec corev1.Ports].
    rewrite list_insert_insert_eq.
    fold (Service_Spec_Ports uv). rewrite Huv.
    replace (<[i := _]> (upre ++ up :: ups))
      with ((upre ++ [patch_port p ep up]) ++ ups).
    2:{ rewrite <- Hi', <- (Nat.add_0_r (length upre)), insert_app_r.
        rewrite <- app_assoc. reflexivity. }
    erewrite (IH eps ups (S i) (epre ++ [ep]) (upre ++ [patch_port p ep up]));
      [ | by rewrite lookup_insert_ne | apply lookup_insert_eq
        | by rewrite Hev, <- app_assoc
        | rewrite length_app; cbn; lia
        | reflexivity
        | rewrite length_app; cbn; lia
        | by injection Hle | by injection Hlu ].
    rewrite insert_insert_eq.
    cbn [patch_ports ports_differ]. rewrite <- app_assoc. cbn [app].
    f_equal. f_equal.
    unfold port_differs. fold b1 b2 b3 b4.
    destruct b1, b2, b3, b4, changed; reflexivity.
Qed.

Lemma LoadBalancerServiceChanged_run h c e cv ev :
  h !! c = Some cv → h !! e = Some ev →
  let u := fresh (dom h) in
  let dp := LoadBalancer_ports_differ (Service_Spec_Ports cv)
                                      (Service_Spec_Ports ev) in
  let ds := negb (deep_equal (Service_Spec_Selector cv)
                             (Service_Spec_Selector ev)) in
  let de := negb (deep_equal (Service_Spec_ExternalTrafficPolicy cv)
                             (Service_Spec_ExternalTrafficPolicy ev)) in
  let da := negb (deep_equal (Service_Spec_SessionAffinity cv)
                             (Service_Spec_SessionAffinity ev)) in
  let dt := negb (deep_equal (Service_Spec_Type cv) (Service_Spec_Type ev)) in
  let uv1 := Service_set_Ports
               (LoadBalancer_ports (Service_Spec_Ports cv)
                                   (Service_Spec_Ports ev)) cv in
  let uv2 := if ds then Service_set_Selector (Service_Spec_Selector ev) uv1
             else uv1 in
  let uv3 := if de
             then Service_set_ExternalTrafficPolicy
                    (Service_Spec_ExternalTrafficPolicy ev) uv2
             else uv2 in
  let uv4 := if da
             then Service_set_SessionAffinity (Service_Spec_SessionAffinity ev) uv3
             else uv3 in
  let uv5 := if dt then Service_set_Type (Service_Spec_Type ev) uv4 else uv4 in
  LoadBalancerServiceChanged (Some c) (Some e) h
  = Some ((if dp || ds || de || da || dt then Some u else None,
           dp || ds || de || da || dt),
          <[u := uv5]> h).
Proof.
  intros Hc He u dp ds de da dt uv1 uv2 uv3 uv4 uv5.
  pose proof (fresh_ne _ _ _ Hc) as Huc. pose proof (fresh_ne _ _ _ He) as Hue.
  fold u in Huc, Hue.
  unfold LoadBalancerServiceChanged.
  do 3 run_step. fold u.
  assert (∃ h1,
    (if negb (Nat.eqb (length (Service_Spec_Ports cv))
                      (length (Service_Spec_Ports ev)))
     then x ← get (Some e) Service_Spec_Ports;
          assign (Some u) (Service_set_Ports x);; mret true
     else ps ← get (Some c) Service_Spec_Ports;
          range_Ports (Some u) (Some e) 0 ps false) (<[u := cv]> h)
    = Some (dp, h1) ∧ h1 = <[u := uv1]> h) as (h1 & Hloop & ->).
  { eexists. split; [|reflexivity].
    subst uv1 dp. unfold LoadBalancer_ports_differ, LoadBalancer_ports.
    destruct (Nat.eqb _ _) eqn:Hlen; cbn [negb].
    - apply Nat.eqb_eq in Hlen. run_step.
      erewrite (range_Ports_run u e ev Hue _ (Service_Spec_Ports ev)
                  (Service_Spec_Ports cv) 0%nat [] [] cv);
        [ | by rewrite lookup_insert_ne | apply lookup_insert_eq
          | reflexivity | reflexivity | reflexivity | reflexivity
          | by symmetry | reflexivity ].
      rewrite insert_insert_eq. reflexivity.
    - repeat run_step. reflexivity. }
  subst uv5 uv4 uv3 uv2.
  rewrite run_bind, Hloop. repeat run_step.
  fold ds; destruct ds; repeat run_step;
    fold de; destruct de; repeat run_step;
    fold da; destruct da; repeat run_step;
    fold dt; destruct dt; repeat run_step;
    rewrite ?orb_true_r, ?orb_false_r; try reflexivity;
    destruct dp; reflexivity.
Qed.

End ServiceRuns.

(** ** Properties of the comparison *)

#[global] Instance string_DeepEqualRefl : DeepEqualRefl string.
Proof. intros x. apply String.eqb_refl. Qed.

#[global] Instance int_DeepEqualRefl : DeepEqualRefl Z.
Proof. intros x. apply Z.eqb_refl. Qed.

#[global] Instance pointer_DeepEqualRefl {A} `{DeepEqualRefl A} :
  DeepEqualRefl (option A).
Proof.
  intros [x|]; [|reflexivity].
  change (deep_equal x x = true). apply deep_equal_refl.
Qed.

#[global] Instance slice_DeepEqualRefl {A} `{DeepEqualRefl A} :
  DeepEqualRefl (list A).
Proof.
  intros s. induction s as [|x s IH]; [reflexivity|].
  change (deep_equal x x && deep_equal s s = true).
  rewrite deep_equal_refl, IH. reflexivity.
Qed.

#[global] Instance map_DeepEqualRefl : DeepEqualRefl StringMap.
Proof.
  intros m. change (map_deep_equal m m = true). unfold map_deep_equal.
  rewrite Bool.eqb_reflx, Nat.eqb_refl. cbn [negb].
  destruct (is_nil m || Nat.eqb (len m) 0); [reflexivity|].
  apply forallb_forall. intros k Hk.
  destruct m as [g|]; [|destruct Hk].
  apply list_elem_of_In, list_elem_of_fmap in Hk as ([k' v] & -> & Hkv).
  apply elem_of_map_to_list in Hkv. cbn [index fst]. rewrite Hkv.
  apply deep_equal_refl.
Qed.

Lemma IntOrString_deep_equal_eq (a b : intstr.IntOrString) :
  deep_equal a b = true ↔ a = b.
Proof.
  destruct a as [t i s], b as [t' i' s'].
  unfold deep_equal, IntOrString_DeepEqual, deep_equal,
    int_DeepEqual, string_DeepEqual. cbn.
  rewrite !andb_true_iff, !Z.eqb_eq, String.eqb_eq.
  split; [intros [[-> ->] ->]; reflexivity | intros [= -> -> ->]; auto].
Qed.

#[global] Instance IntOrString_DeepEqualRefl : DeepEqualRefl intstr.IntOrString.
Proof. intros x. apply IntOrString_deep_equal_eq. reflexivity. Qed.

#[global] Instance ServicePort_DeepEqualRefl : DeepEqualRefl corev1.ServicePort.
Proof.
  intros p. unfold deep_equal, ServicePort_DeepEqual.
  rewrite !deep_equal_refl. reflexivity.
Qed.

Lemma port_differs_refl (p : corev1.ServicePort) : port_differs p p = false.
Proof. unfold port_differs. rewrite !deep_equal_refl. reflexivity. Qed.

Lemma patch_port_refl (p up : corev1.ServicePort) : patch_port p p up = up.
Proof. unfold patch_port. rewrite !deep_equal_refl. reflexivity. Qed.

Lemma ports_differ_refl (ps : list corev1.ServicePort) :
  ports_differ ps ps = false.
Proof.
  induction ps as [|p ps IH]; [reflexivity|].
  cbn [ports_differ]. rewrite port_differs_refl, IH. reflexivity.
Qed.

Lemma patch_ports_refl (ps : list corev1.ServicePort) :
  patch_ports ps ps ps = ps.
Proof.
  induction ps as [|p ps IH]; [reflexivity|].
  cbn [patch_ports]. rewrite patch_port_refl, IH. reflexivity.
Qed.

(** ** The workloads: daemon set and deployment *)

Section WorkloadClaims.
Context {DaemonSetSpec DaemonSetStatus : Type} `{!DeepEqual DaemonSetSpec}.
Context {DeploymentSpec DeploymentStatus : Type} `{!DeepEqual DeploymentSpec}.

Abbreviation DaemonSet := (appsv1.DaemonSet DaemonSetSpec DaemonSetStatus).
Abbreviation Deployment := (appsv1.Deployment DeploymentSpec DeploymentStatus).

(** C1, as amended.  [DaemonsetConfigChanged]: when the result is
    [changed = true], [updated] points to a new object that is [current]
    with the labels and the spec taken from [expected] where they were found
    to differ; the name, the annotations, all other metadata and the status
    are those of [current].  [DeploymentConfigChanged]: when the result is
    [changed = true], [updated] is the pointer [expected] itself, so every
    field of [updated] is the field of [expected]. *)
Theorem workload_updated_fields :
  (∀ (h : gmap loc DaemonSet) c e cv ev,
     h !! c = Some cv → h !! e = Some ev →
     ∃ updated changed h',
       DaemonsetConfigChanged (Some c) (Some e) h
       = Some ((updated, changed), h')
       ∧ (changed = true →
          ∃ u uv,
            updated = Some u ∧ h !! u = None ∧ h' !! u = Some uv
            ∧ same_but_Labels (appsv1.DaemonSet_ObjectMeta cv)
                              (appsv1.DaemonSet_ObjectMeta uv)
            ∧ appsv1.DaemonSet_Status uv = appsv1.DaemonSet_Status cv
            ∧ DaemonSet_Labels uv
              = (if deep_equal (DaemonSet_Labels cv) (DaemonSet_Labels ev)
                 then DaemonSet_Labels cv else DaemonSet_Labels ev)
            ∧ appsv1.DaemonSet_Spec uv
              = (if deep_equal (appsv1.DaemonSet_Spec cv)
                               (appsv1.DaemonSet_Spec ev)
                 then appsv1.DaemonSet_Spec cv
                 else appsv1.DaemonSet_Spec ev)))
  ∧ (∀ (h : gmap loc Deployment) c e cv ev,
       h !! c = Some cv → h !! e = Some ev →
       ∃ updated changed h',
         DeploymentConfigChanged (Some c) (Some e) h
         = Some ((updated, changed), h')
         ∧ (changed = true → updated = Some e ∧ h' !! e = Some ev)).
Proof.
  split; intros h c e cv ev Hc He.
  - rewrite (DaemonsetConfigChanged_run h c e cv ev Hc He).
    do 3 eexists. split; [reflexivity|]. intros Hch.
    destruct (negb (deep_equal (DaemonSet_Labels cv) (DaemonSet_Labels ev))
              || negb (deep_equal (appsv1.DaemonSet_Spec cv)
                                  (appsv1.DaemonSet_Spec ev))) eqn:Hd;
      [|discriminate].
    do 2 eexists. split; [reflexivity|].
    split; [apply lookup_fresh|]. split; [apply lookup_insert_eq|].
    destruct (deep_equal (DaemonSet_Labels cv) (DaemonSet_Labels ev)),
      (deep_equal (appsv1.DaemonSet_Spec cv) (appsv1.DaemonSet_Spec ev));
      cbn; repeat split; reflexivity.
  - rewrite (DeploymentConfigChanged_run h c e cv ev Hc He).
    do 3 eexists. split; [reflexivity|]. intros Hch.
    destruct (negb (deep_equal (Deployment_Labels cv) (Deployment_Labels ev))
              || negb (deep_equal (appsv1.Deployment_Spec cv)
                                  (appsv1.Deployment_Spec ev)));
      [|discriminate].
    split; [reflexivity|].
    rewrite lookup_insert_ne by (eapply fresh_ne; eassumption). assumption.
Qed.

End WorkloadClaims.

Lemma workload_updated_fields_witness :
  let dc := Sample.daemonset "envoy" (Sample.labels "a" "1")
              (Sample.labels "note" "x") ["envoy"%string] in
  let de := Sample.daemonset "envoy-new" (Sample.labels "a" "2") None
              ["envoy"%string] in
  (∃ h' uv,
     DaemonsetConfigChanged (Some 1%positive) (Some 2%positive)
       (Sample.store dc de) = Some ((Some 3%positive, true), h')
     ∧ h' !! 3%positive = Some uv
     ∧ metav1.Name (appsv1.DaemonSet_ObjectMeta uv) = "envoy"%string
     ∧ DaemonSet_Labels uv = Sample.labels "a" "2").
Proof.
  intros dc de.
  destruct (@workload_updated_fields (list string) Z _ (list string) Z _)
    as [Hds _].
  destruct (Hds (Sample.store dc de) 1%positive 2%positive dc de
              eq_refl eq_refl)
    as (updated & changed & h' & Hrun & Hframe).
  vm_compute in Hrun. injection Hrun as <- <- <-.
  destruct (Hframe eq_refl) as (u & uv & [= <-] & _ & Hu & Hm & _ & Hl & _).
  eexists _, uv. split; [vm_compute; reflexivity|].
  split; [exact Hu|]. split; [apply Hm | exact Hl].
Defined.

(** C1 fails for the deployment: with labels that differ,
    [DeploymentConfigChanged] returns [expected], whose name and annotations
    are not those of [current]. *)
Lemma Deployment_updated_is_expected :
  let dc := Sample.deployment "contour" (Sample.labels "a" "1")
              (Sample.labels "note" "x") ["contour"%string] in
  let de := Sample.deployment "contour-new" (Sample.labels "a" "2") None
              ["contour"%string] in
  ∃ h',
    DeploymentConfigChanged (Some 1%positive) (Some 2%positive)
      (Sample.store dc de) = Some ((Some 2%positive, true), h')
    ∧ h' !! 2%positive = Some de
    ∧ metav1.Name (appsv1.Deployment_ObjectMeta de)
      ≠ metav1.Name (appsv1.Deployment_ObjectMeta dc)
    ∧ metav1.Annotations (appsv1.Deployment_ObjectMeta de)
      ≠ metav1.Annotations (appsv1.Deployment_ObjectMeta dc).
Proof.
  intros dc de. eexists. split; [vm_compute; reflexivity|].
  split; [reflexivity|]. split; discriminate.
Qed.

(** ** The certgen job *)

Section JobClaims.
Context {PodSpec JobStatus : Type} `{!DeepEqual PodSpec}.
Variable OwningContourLabel : string.

Abbreviation Job := (batchv1.Job PodSpec JobStatus).
Implicit Types (h : gmap loc Job) (cv ev : Job).

(** C2, as amended.  [JobConfigChanged]: when the result is
    [changed = true], [updated] is the pointer [expected], so the completion
    count of [updated] is that of [expected]; it is that of [current] only
    where the two snapshots agree on it. *)
Theorem Job_updated_Completions h c e cv ev :
  h !! c = Some cv → h !! e = Some ev →
  ∃ updated changed h',
    JobConfigChanged OwningContourLabel (Some c) (Some e) h
    = Some ((updated, changed), h')
    ∧ (changed = true →
       ∃ uv, updated = Some e ∧ h' !! e = Some uv
             ∧ batchv1.Completions (batchv1.Job_Spec uv)
               = batchv1.Completions (batchv1.Job_Spec ev)).
Proof.
  intros Hc He. rewrite (JobConfigChanged_run _ h c e cv ev Hc He).
  do 3 eexists. split; [reflexivity|]. intros ->.
  exists ev. split; [reflexivity|]. split; [|reflexivity].
  rewrite lookup_insert_ne by (eapply fresh_ne; eassumption). assumption.
Qed.

(** C3.  [JobConfigChanged]: when one of the comparisons finds a difference
    (labels, parallelism, backoff limit, template spec, or template labels
    of [current] that are not nil and lack the owning label), the result is
    [changed = true] and [updated] is the pointer [expected]: the returned
    snapshot is [expected] as a whole. *)
Theorem Job_difference_returns_expected h c e cv ev :
  h !! c = Some cv → h !! e = Some ev →
  deep_equal (Job_Labels cv) (Job_Labels ev) = false
  ∨ deep_equal (Job_Spec_Parallelism cv) (Job_Spec_Parallelism ev) = false
  ∨ deep_equal (Job_Spec_BackoffLimit cv) (Job_Spec_BackoffLimit ev) = false
  ∨ (is_nil (Job_Spec_Template_Labels cv) = false
     ∧ index (Job_Spec_Template_Labels cv) OwningContourLabel = None)
  ∨ deep_equal (Job_Spec_Template_Spec cv) (Job_Spec_Template_Spec ev) = false →
  ∃ h',
    JobConfigChanged OwningContourLabel (Some c) (Some e) h
    = Some ((Some e, true), h')
    ∧ h' !! e = Some ev.
Proof.
  intros Hc He Hd. rewrite (JobConfigChanged_run _ h c e cv ev Hc He).
  assert (Job_differs OwningContourLabel cv ev = true) as ->.
  { unfold Job_differs, owner_label_missing.
    destruct Hd as [-> | [-> | [-> | [[-> ->] | ->]]]]; cbn;
      rewrite ?orb_true_r; reflexivity. }
  eexists. split; [reflexivity|].
  rewrite lookup_insert_ne by (eapply fresh_ne; eassumption). assumption.
Qed.

(** C4.  [JobConfigChanged]: when the template labels of [current] are not
    nil and do not hold the owning label, the result is [changed = true]
    with [updated] the pointer [expected], whatever the other fields are. *)
Theorem Job_missing_owner_label_returns_expected h c e cv ev :
  h !! c = Some cv → h !! e = Some ev →
  is_nil (Job_Spec_Template_Labels cv) = false →
  index (Job_Spec_Template_Labels cv) OwningContourLabel = None →
  ∃ h',
    JobConfigChanged OwningContourLabel (Some c) (Some e) h
    = Some ((Some e, true), h')
    ∧ h' !! e = Some ev.
Proof.
  intros Hc He Hnil Hidx. rewrite (JobConfigChanged_run _ h c e cv ev Hc He).
  assert (Job_differs OwningContourLabel cv ev = true) as ->.
  { unfold Job_differs, owner_label_missing. rewrite Hnil, Hidx. cbn.
    rewrite ?orb_true_r. reflexivity. }
  eexists. split; [reflexivity|].
  rewrite lookup_insert_ne by (eapply fresh_ne; eassumption). assumption.
Qed.

(** C10.  [JobConfigChanged]: when the template labels of [current] are the
    nil map, the owning label is not looked up and [changed] is the
    disjunction of the four comparisons (labels, parallelism, backoff limit,
    template spec).  With the empty map in place of the nil map, in a store
    [h2] that is otherwise the same, the result is [changed = true] with
    [updated] the pointer [expected]. *)
Theorem Job_nil_template_labels h h2 c e cv ev :
  h !! c = Some cv → h !! e = Some ev →
  is_nil (Job_Spec_Template_Labels cv) = true →
  h2 !! c = Some (Job_set_Template_Labels (Some ∅) cv) → h2 !! e = Some ev →
  (∃ updated h',
     JobConfigChanged OwningContourLabel (Some c) (Some e) h
     = Some ((updated,
              negb (deep_equal (Job_Labels cv) (Job_Labels ev))
              || negb (deep_equal (Job_Spec_Parallelism cv)
                                  (Job_Spec_Parallelism ev))
              || negb (deep_equal (Job_Spec_BackoffLimit cv)
                                  (Job_Spec_BackoffLimit ev))
              || negb (deep_equal (Job_Spec_Template_Spec cv)
                                  (Job_Spec_Template_Spec ev))), h'))
  ∧ (∃ h',
       JobConfigChanged OwningContourLabel (Some c) (Some e) h2
       = Some ((Some e, true), h')).
Proof.
  intros Hc He Hnil Hc2 He2. split.
  - rewrite (JobConfigChanged_run _ h c e cv ev Hc He).
    unfold Job_differs, owner_label_missing. rewrite Hnil. cbn [negb andb].
    rewrite orb_false_r. do 2 eexists. reflexivity.
  - rewrite (JobConfigChanged_run _ h2 c e _ ev Hc2 He2).
    unfold Job_differs, owner_label_missing. cbn. rewrite ?orb_true_r.
    eexists. reflexivity.
Qed.

End JobClaims.

Lemma Job_updated_Completions_witness :
  let jc := Sample.job (Sample.labels "app" "old") (Some 1) None in
  let je := Sample.job (Sample.labels "app" "new") (Some 2) None in
  ∃ h' uv,
    JobConfigChanged Sample.OwningContourLabel (Some 1%positive)
      (Some 2%positive) (Sample.store jc je)
    = Some ((Some 2%positive, true), h')
    ∧ h' !! 2%positive = Some uv
    ∧ batchv1.Completions (batchv1.Job_Spec uv) = Some 2.
Proof.
  intros jc je.
  destruct (Job_updated_Completions Sample.OwningContourLabel
              (Sample.store jc je) 1%positive 2%positive jc je
              eq_refl eq_refl)
    as (updated & changed & h' & Hrun & Hup).
  vm_compute in Hrun. injection Hrun as <- <- <-.
  destruct (Hup eq_refl) as (uv & _ & Hl & Hcompl).
  eexists _, uv. split; [vm_compute; reflexivity|].
  split; [exact Hl | exact Hcompl].
Defined.

(** C2 fails: with labels that differ, [JobConfigChanged] returns
    [expected], whose completion count (none) is not that of [current]
    (one). *)
Lemma Job_updated_Completions_not_current :
  let jc := Sample.job (Sample.labels "app" "old") (Some 1) None in
  let je := Sample.job (Sample.labels "app" "new") None None in
  ∃ h',
    JobConfigChanged Sample.OwningContourLabel (Some 1%positive)
      (Some 2%positive) (Sample.store jc je)
    = Some ((Some 2%positive, true), h')
    ∧ h' !! 2%positive = Some je
    ∧ batchv1.Completions (batchv1.Job_Spec je)
      ≠ batchv1.Completions (batchv1.Job_Spec jc).
Proof.
  intros jc je. eexists. split; [vm_compute; reflexivity|].
  split; [reflexivity | discriminate].
Qed.

Lemma Job_difference_returns_expected_witness :
  let jc := Sample.job (Sample.labels "app" "old") (Some 1) None in
  let je := Sample.job (Sample.labels "app" "new") (Some 1) None in
  deep_equal (Job_Labels jc) (Job_Labels je) = false
  ∧ ∃ h',
      JobConfigChanged Sample.OwningContourLabel (Some 1%positive)
        (Some 2%positive) (Sample.store jc je)
      = Some ((Some 2%positive, true), h')
      ∧ h' !! 2%positive = Some je.
Proof.
  intros jc je. split; [reflexivity|].
  apply (Job_difference_returns_expected Sample.OwningContourLabel
           (Sample.store jc je) 1%positive 2%positive jc je);
    [reflexivity | reflexivity | left; reflexivity].
Defined.

Lemma Job_missing_owner_label_returns_expected_witness :
  let j := Sample.job None (Some 1) (Some ∅) in
  is_nil (Job_Spec_Template_Labels j) = false
  ∧ index (Job_Spec_Template_Labels j) Sample.OwningContourLabel = None
  ∧ ∃ h',
      JobConfigChanged Sample.OwningContourLabel (Some 1%positive)
        (Some 2%positive) (Sample.store j j)
      = Some ((Some 2%positive, true), h')
      ∧ h' !! 2%positive = Some j.
Proof.
  intros j. split; [reflexivity|]. split; [reflexivity|].
  apply (Job_missing_owner_label_returns_expected Sample.OwningContourLabel
           (Sample.store j j) 1%positive 2%positive j j); reflexivity.
Defined.

Lemma Job_nil_template_labels_witness :
  let j := Sample.job None (Some 1) None in
  let j' := Sample.job None (Some 1) (Some ∅) in
  (∃ updated h',
     JobConfigChanged Sample.OwningContourLabel (Some 1%positive)
       (Some 2%positive) (Sample.store j j)
     = Some ((updated, false), h'))
  ∧ (∃ h',
       JobConfigChanged Sample.OwningContourLabel (Some 1%positive)
         (Some 2%positive) (Sample.store j' j)
       = Some ((Some 2%positive, true), h')).
Proof.
  intros j j'.
  destruct (Job_nil_template_labels Sample.OwningContourLabel
              (Sample.store j j) (Sample.store j' j) 1%positive 2%positive
              j j eq_refl eq_refl eq_refl eq_refl eq_refl)
    as [(updated & h1 & Hnil) (h2 & Hempty)].
  split; [exists updated, h1; exact Hnil | exists h2; exact Hempty].
Defined.

(** ** The services *)

Section ServiceClaims.
Context {ServiceStatus : Type}.

Abbreviation Service := (corev1.Service ServiceStatus).
Implicit Types (h : gmap loc Service) (cv ev : Service).
Implicit Types (p q pj : corev1.ServicePort) (ps : list corev1.ServicePort).

Lemma port_differs_TargetPort pj tp :
  tp ≠ corev1.TargetPort pj →
  port_differs pj (corev1.with_TargetPort tp pj) = true.
Proof.
  intros Hne. unfold port_differs. cbn.
  destruct (deep_equal (corev1.TargetPort pj) tp) eqn:Heq.
  - apply IntOrString_deep_equal_eq in Heq. congruence.
  - rewrite !orb_true_r. reflexivity.
Qed.

Lemma patch_port_TargetPort pj tp :
  patch_port pj (corev1.with_TargetPort tp pj) pj
  = if deep_equal (corev1.TargetPort pj) tp then pj
    else corev1.with_TargetPort tp pj.
Proof.
  unfold patch_port. cbn. rewrite !deep_equal_refl. cbn.
  destruct (deep_equal (corev1.TargetPort pj) tp); reflexivity.
Qed.

Lemma ports_differ_insert ps j pj tp :
  ps !! j = Some pj → tp ≠ corev1.TargetPort pj →
  ports_differ ps (<[j := corev1.with_TargetPort tp pj]> ps) = true.
Proof.
  revert j. induction ps as [|p ps IH]; intros [|j] Hj Hne;
    try discriminate.
  - injection Hj as ->.
    change (port_differs pj (corev1.with_TargetPort tp pj)
            || ports_differ ps ps = true).
    rewrite port_differs_TargetPort by done. reflexivity.
  - change (port_differs p p
            || ports_differ ps (<[j := corev1.with_TargetPort tp pj]> ps)
            = true).
    rewrite (IH j) by done. apply orb_true_r.
Qed.

Lemma patch_ports_insert ps j pj tp :
  ps !! j = Some pj → tp ≠ corev1.TargetPort pj →
  patch_ports ps (<[j := corev1.with_TargetPort tp pj]> ps) ps
  = <[j := corev1.with_TargetPort tp pj]> ps.
Proof.
  revert j. induction ps as [|p ps IH]; intros [|j] Hj Hne;
    try discriminate.
  - injection Hj as ->.
    change (patch_port pj (corev1.with_TargetPort tp pj) pj
            :: patch_ports ps ps ps = corev1.with_TargetPort tp pj :: ps).
    rewrite patch_port_TargetPort, patch_ports_refl.
    destruct (deep_equal (corev1.TargetPort pj) tp) eqn:Heq; [|reflexivity].
    apply IntOrString_deep_equal_eq in Heq. congruence.
  - change (patch_port p p p
            :: patch_ports ps (<[j := corev1.with_TargetPort tp pj]> ps) ps
            = p :: <[j := corev1.with_TargetPort tp pj]> ps).
    rewrite patch_port_refl, (IH j) by done. reflexivity.
Qed.

(** C5.  [LoadBalancerServiceChanged]: when [expected] is [current] but for
    the target port of the port at index [j], the result is
    [changed = true] and [updated] points to a new object whose port list is
    that of [current] with the target port at index [j] replaced; the node
    port of every port, and every field outside the port list, is that of
    [current]. *)
Theorem LoadBalancer_target_port_patch h c e cv j pj tp :
  h !! c = Some cv →
  Service_Spec_Ports cv !! j = Some pj →
  tp ≠ corev1.TargetPort pj →
  h !! e = Some (Service_set_Ports
                   (<[j := corev1.with_TargetPort tp pj]>
                      (Service_Spec_Ports cv)) cv) →
  ∃ u uv h',
    LoadBalancerServiceChanged (Some c) (Some e) h = Some ((Some u, true), h')
    ∧ h !! u = None ∧ h' !! u = Some uv
    ∧ Service_Spec_Ports uv
      = <[j := corev1.with_TargetPort tp pj]> (Service_Spec_Ports cv)
    ∧ (∀ i p q,
         Service_Spec_Ports uv !! i = Some p →
         Service_Spec_Ports cv !! i = Some q →
         corev1.NodePort p = corev1.NodePort q)
    ∧ Service_set_Ports (Service_Spec_Ports cv) uv = cv.
Proof.
  intros Hc Hj Hne He.
  rewrite (LoadBalancerServiceChanged_run h c e cv _ Hc He).
  cbn [Service_Spec_Ports Service_Spec_Selector Service_Spec_Type
       Service_Spec_SessionAffinity Service_Spec_ExternalTrafficPolicy
       Service_set_Ports corev1.with_Spec corev1.with_Ports
       corev1.Service_Spec corev1.Ports corev1.Selector corev1.Type_
       corev1.SessionAffinity corev1.ExternalTrafficPolicy].
  fold (Service_Spec_Ports cv).
  unfold LoadBalancer_ports_differ, LoadBalancer_ports.
  rewrite length_insert, Nat.eqb_refl. cbn [negb].
  rewrite (ports_differ_insert _ j pj tp Hj Hne),
    (patch_ports_insert _ j pj tp Hj Hne), !deep_equal_refl.
  cbn [negb orb].
  do 3 eexists. split; [reflexivity|].
  split; [apply lookup_fresh|]. split; [apply lookup_insert_eq|].
  split; [reflexivity|]. split.
  - cbn. fold (Service_Spec_Ports cv). intros i p q Hp Hq.
    destruct (decide (i = j)) as [->|Hij].
    + rewrite list_lookup_insert_eq in Hp by (eapply lookup_lt_Some; eassumption).
      rewrite Hj in Hq. injection Hp as <-. injection Hq as <-. reflexivity.
    + rewrite list_lookup_insert_ne in Hp by done. congruence.
  - destruct cv as [m [] st]. reflexivity.
Qed.

(** C6.  [ClusterIpServiceChanged]: when [expected] is [current] but for
    the port list, and the two port lists differ in length, the result is
    [changed = true] and [updated] points to a new object with the port list
    of [expected]; its cluster IP and every other field are those of
    [current]. *)
Theorem ClusterIp_port_count_replaces_ports h c e cv eps :
  h !! c = Some cv →
  h !! e = Some (Service_set_Ports eps cv) →
  length (Service_Spec_Ports cv) ≠ length eps →
  ∃ u uv h',
    ClusterIpServiceChanged (Some c) (Some e) h = Some ((Some u, true), h')
    ∧ h !! u = None ∧ h' !! u = Some uv
    ∧ Service_Spec_Ports uv = eps
    ∧ corev1.ClusterIP (corev1.Service_Spec uv)
      = corev1.ClusterIP (corev1.Service_Spec cv)
    ∧ uv = Service_set_Ports eps cv.
Proof.
  intros Hc He Hlen.
  rewrite (ClusterIpServiceChanged_run h c e cv _ Hc He).
  cbn [Service_Spec_Ports Service_Spec_Selector Service_Spec_Type
       Service_Spec_SessionAffinity
       Service_set_Ports corev1.with_Spec corev1.with_Ports
       corev1.Service_Spec corev1.Ports corev1.Selector corev1.Type_
       corev1.SessionAffinity].
  unfold ClusterIp_ports_differ.
  apply Nat.eqb_neq in Hlen. rewrite Hlen, !deep_equal_refl. cbn [negb orb].
  do 3 eexists. split; [reflexivity|].
  split; [apply lookup_fresh|]. split; [apply lookup_insert_eq|].
  repeat split; reflexivity.
Qed.

End ServiceClaims.

Lemma LoadBalancer_target_port_patch_witness :
  let target (n : Z) :=
    {| intstr.Type_ := 0; intstr.IntVal := n; intstr.StrVal := "" |} in
  let sc := Sample.service "LoadBalancer" "10.0.0.7" 30000
              [Sample.port "http" 80 8080 31080;
               Sample.port "https" 443 8443 31443] in
  let se := Sample.service "LoadBalancer" "10.0.0.7" 30000
              [Sample.port "http" 80 8080 31080;
               Sample.port "https" 443 9443 31443] in
  ∃ h' uv,
    LoadBalancerServiceChanged (Some 1%positive) (Some 2%positive)
      (Sample.store sc se) = Some ((Some 3%positive, true), h')
    ∧ h' !! 3%positive = Some uv
    ∧ Service_Spec_Ports uv
      = [Sample.port "http" 80 8080 31080;
         Sample.port "https" 443 9443 31443].
Proof.
  intros target sc se.
  destruct (LoadBalancer_target_port_patch (Sample.store sc se)
              1%positive 2%positive sc 1%nat
              (Sample.port "https" 443 8443 31443) (target 9443)
              eq_refl eq_refl ltac:(discriminate) eq_refl)
    as (u & uv & h' & Hrun & _ & Hu & Hports & _).
  assert (u = 3%positive) as ->.
  { vm_compute in Hrun. injection Hrun as <- _. reflexivity. }
  exists h', uv. split; [exact Hrun|]. split; [exact Hu | exact Hports].
Defined.

Lemma ClusterIp_port_count_replaces_ports_witness :
  let two := [Sample.port "http" 80 8080 0; Sample.port "https" 443 8443 0] in
  let three := two ++ [Sample.port "metrics" 8002 8002 0] in
  let sc := Sample.service "ClusterIP" "10.0.0.7" 0 two in
  let se := Sample.service "ClusterIP" "10.0.0.7" 0 three in
  ∃ h' uv,
    ClusterIpServiceChanged (Some 1%positive) (Some 2%positive)
      (Sample.store sc se) = Some ((Some 3%positive, true), h')
    ∧ h' !! 3%positive = Some uv
    ∧ Service_Spec_Ports uv = three
    ∧ corev1.ClusterIP (corev1.Service_Spec uv) = "10.0.0.7"%string.
Proof.
  intros two three sc se.
  destruct (ClusterIp_port_count_replaces_ports (Sample.store sc se)
              1%positive 2%positive sc three
              eq_refl eq_refl ltac:(discriminate))
    as (u & uv & h' & Hrun & _ & Hu & Hports & Hip & _).
  assert (u = 3%positive) as ->.
  { vm_compute in Hrun. injection Hrun as <- _. reflexivity. }
  exists h', uv. split; [exact Hrun|].
  split; [exact Hu|]. split; [exact Hports | exact Hip].
Defined.

(** ** All five functions *)

Lemma port_differs_same_but_NodePort (p q : corev1.ServicePort) :
  same_but_NodePort p q → port_differs p q = false.
Proof.
  intros ->. unfold port_differs. cbn. rewrite !deep_equal_refl. reflexivity.
Qed.

Lemma patch_port_same_but_NodePort (p q up : corev1.ServicePort) :
  same_but_NodePort p q → patch_port p q up = up.
Proof.
  intros ->. unfold patch_port. cbn. rewrite !deep_equal_refl. reflexivity.
Qed.

Lemma ports_same_but_NodePort (ps eps : list corev1.ServicePort) :
  Forall2 same_but_NodePort ps eps →
  length ps = length eps
  ∧ ports_differ ps eps = false
  ∧ patch_ports ps eps ps = ps.
Proof.
  induction 1 as [|p q ps eps Hpq _ (IHl & IHd & IHp)];
    [repeat split; reflexivity|].
  cbn [length ports_differ patch_ports].
  rewrite (port_differs_same_but_NodePort p q Hpq),
    (patch_port_same_but_NodePort p q p Hpq), IHl, IHd, IHp.
  repeat split; reflexivity.
Qed.

Section AllClaims.
Context {DaemonSetSpec DaemonSetStatus : Type} `{!DeepEqual DaemonSetSpec}.
Context {DeploymentSpec DeploymentStatus : Type} `{!DeepEqual DeploymentSpec}.
Context {PodSpec JobStatus : Type} `{!DeepEqual PodSpec}.
Context {ServiceStatus : Type}.
Variable OwningContourLabel : string.

Abbreviation DaemonSet := (appsv1.DaemonSet DaemonSetSpec DaemonSetStatus).
Abbreviation Deployment := (appsv1.Deployment DeploymentSpec DeploymentStatus).
Abbreviation Job := (batchv1.Job PodSpec JobStatus).
Abbreviation Service := (corev1.Service ServiceStatus).

(** C9.  Each of the five functions, on two pointers that are not nil,
    returns; the pointer [updated] it returns is nil exactly when [changed]
    is false, and when [changed] is true it points to an object of the
    store. *)
Theorem updated_nil_iff_unchanged :
  (∀ (h : gmap loc DaemonSet) c e cv ev,
     h !! c = Some cv → h !! e = Some ev →
     ∃ updated changed h',
       DaemonsetConfigChanged (Some c) (Some e) h
       = Some ((updated, changed), h')
       ∧ (updated = None ↔ changed = false)
       ∧ (changed = true → ∃ u, updated = Some u ∧ is_Some (h' !! u)))
  ∧ (∀ (h : gmap loc Job) c e cv ev,
       h !! c = Some cv → h !! e = Some ev →
       ∃ updated changed h',
         JobConfigChanged OwningContourLabel (Some c) (Some e) h
         = Some ((updated, changed), h')
         ∧ (updated = None ↔ changed = false)
         ∧ (changed = true → ∃ u, updated = Some u ∧ is_Some (h' !! u)))
  ∧ (∀ (h : gmap loc Deployment) c e cv ev,
       h !! c = Some cv → h !! e = Some ev →
       ∃ updated changed h',
         DeploymentConfigChanged (Some c) (Some e) h
         = Some ((updated, changed), h')
         ∧ (updated = None ↔ changed = false)
         ∧ (changed = true → ∃ u, updated = Some u ∧ is_Some (h' !! u)))
  ∧ (∀ (h : gmap loc Service) c e cv ev,
       h !! c = Some cv → h !! e = Some ev →
       ∃ updated changed h',
         ClusterIpServiceChanged (Some c) (Some e) h
         = Some ((updated, changed), h')
         ∧ (updated = None ↔ changed = false)
         ∧ (changed = true → ∃ u, updated = Some u ∧ is_Some (h' !! u)))
  ∧ (∀ (h : gmap loc Service) c e cv ev,
       h !! c = Some cv → h !! e = Some ev →
       ∃ updated changed h',
         LoadBalancerServiceChanged (Some c) (Some e) h
         = Some ((updated, changed), h')
         ∧ (updated = None ↔ changed = false)
         ∧ (changed = true → ∃ u, updated = Some u ∧ is_Some (h' !! u))).
Proof.
  split; [|split; [|split; [|split]]]; intros h c e cv ev Hc He;
    pose proof (fresh_ne _ _ _ He) as Hue;
    [ rewrite (DaemonsetConfigChanged_run h c e cv ev Hc He)
    | rewrite (JobConfigChanged_run OwningContourLabel h c e cv ev Hc He)
    | rewrite (DeploymentConfigChanged_run h c e cv ev Hc He)
    | rewrite (ClusterIpServiceChanged_run h c e cv ev Hc He)
    | rewrite (LoadBalancerServiceChanged_run h c e cv ev Hc He) ];
    cbv zeta;
    match goal with
    | |- context [Some ((if ?d then _ else _, _), _)] => destruct d
    end;
    (do 3 eexists; split; [reflexivity|]; split;
     [ split; intros Hnil; first [discriminate Hnil | reflexivity]
     | intros Hch;
       first [ discriminate Hch
             | eexists; split; [reflexivity|];
               first [ rewrite lookup_insert_eq; eexists; reflexivity
                     | rewrite lookup_insert_ne by done;
                       eexists; eassumption ] ] ]).
Qed.

End AllClaims.

Section EqualSnapshots.
Context {DaemonSetSpec DaemonSetStatus : Type} `{!DeepEqual DaemonSetSpec}.
Context {DeploymentSpec DeploymentStatus : Type} `{!DeepEqual DeploymentSpec}.
Context {PodSpec JobStatus : Type} `{!DeepEqual PodSpec}.
Context {ServiceStatus : Type}.
Context `{!DeepEqualRefl DaemonSetSpec} `{!DeepEqualRefl DeploymentSpec}.
Context `{!DeepEqualRefl PodSpec}.
Variable OwningContourLabel : string.

Abbreviation DaemonSet := (appsv1.DaemonSet DaemonSetSpec DaemonSetStatus).
Abbreviation Deployment := (appsv1.Deployment DeploymentSpec DeploymentStatus).
Abbreviation Job := (batchv1.Job PodSpec JobStatus).
Abbreviation Service := (corev1.Service ServiceStatus).

(** C7, as amended.  When [current] and [expected] hold the same snapshot,
    [DaemonsetConfigChanged], [DeploymentConfigChanged],
    [ClusterIpServiceChanged] and [LoadBalancerServiceChanged] return
    [changed = false]; [JobConfigChanged] returns [changed = false] when the
    template labels of the snapshot are nil or hold the owning label. *)
Theorem equal_snapshots_unchanged :
  (∀ (h : gmap loc DaemonSet) c e v,
     h !! c = Some v → h !! e = Some v →
     ∃ h', DaemonsetConfigChanged (Some c) (Some e) h
           = Some ((None, false), h'))
  ∧ (∀ (h : gmap loc Job) c e v,
       h !! c = Some v → h !! e = Some v →
       is_nil (Job_Spec_Template_Labels v) = true
       ∨ is_Some (index (Job_Spec_Template_Labels v) OwningContourLabel) →
       ∃ h', JobConfigChanged OwningContourLabel (Some c) (Some e) h
             = Some ((None, false), h'))
  ∧ (∀ (h : gmap loc Deployment) c e v,
       h !! c = Some v → h !! e = Some v →
       ∃ h', DeploymentConfigChanged (Some c) (Some e) h
             = Some ((None, false), h'))
  ∧ (∀ (h : gmap loc Service) c e v,
       h !! c = Some v → h !! e = Some v →
       ∃ h', ClusterIpServiceChanged (Some c) (Some e) h
             = Some ((None, false), h'))
  ∧ (∀ (h : gmap loc Service) c e v,
       h !! c = Some v → h !! e = Some v →
       ∃ h', LoadBalancerServiceChanged (Some c) (Some e) h
             = Some ((None, false), h')).
Proof.
  split; [|split; [|split; [|split]]].
  - intros h c e v Hc He.
    rewrite (DaemonsetConfigChanged_run h c e v v Hc He).
    rewrite !deep_equal_refl. eexists. reflexivity.
  - intros h c e v Hc He Hown.
    rewrite (JobConfigChanged_run OwningContourLabel h c e v v Hc He).
    unfold Job_differs, owner_label_missing. rewrite !deep_equal_refl.
    destruct Hown as [-> | [x ->]]; cbn; rewrite ?andb_false_r;
      eexists; reflexivity.
  - intros h c e v Hc He.
    rewrite (DeploymentConfigChanged_run h c e v v Hc He).
    rewrite !deep_equal_refl. eexists. reflexivity.
  - intros h c e v Hc He.
    rewrite (ClusterIpServiceChanged_run h c e v v Hc He).
    unfold ClusterIp_ports_differ.
    rewrite Nat.eqb_refl, !deep_equal_refl. eexists. reflexivity.
  - intros h c e v Hc He.
    rewrite (LoadBalancerServiceChanged_run h c e v v Hc He).
    unfold LoadBalancer_ports_differ.
    rewrite Nat.eqb_refl, ports_differ_refl, !deep_equal_refl.
    eexists. reflexivity.
Qed.

(** C8, as amended.  When [expected] is [current] but for a field assigned
    by the cluster, the result is [changed = false]: the cluster IP for
    [ClusterIpServiceChanged]; the node ports of the ports and the health
    check node port for [LoadBalancerServiceChanged]; the completion count
    for [JobConfigChanged], when the template labels of [current] are nil or
    hold the owning label. *)
Theorem system_fields_unchanged :
  (∀ (h : gmap loc Service) c e cv ip,
     h !! c = Some cv → h !! e = Some (Service_set_ClusterIP ip cv) →
     ∃ h', ClusterIpServiceChanged (Some c) (Some e) h
           = Some ((None, false), h'))
  ∧ (∀ (h : gmap loc Service) c e cv eps hc,
       h !! c = Some cv →
       Forall2 same_but_NodePort (Service_Spec_Ports cv) eps →
       h !! e = Some (Service_set_HealthCheckNodePort hc
                        (Service_set_Ports eps cv)) →
       ∃ h', LoadBalancerServiceChanged (Some c) (Some e) h
             = Some ((None, false), h'))
  ∧ (∀ (h : gmap loc Job) c e cv n,
       h !! c = Some cv → h !! e = Some (Job_set_Completions n cv) →
       is_nil (Job_Spec_Template_Labels cv) = true
       ∨ is_Some (index (Job_Spec_Template_Labels cv) OwningContourLabel) →
       ∃ h', JobConfigChanged OwningContourLabel (Some c) (Some e) h
             = Some ((None, false), h')).
Proof.
  split; [|split].
  - intros h c e cv ip Hc He.
    rewrite (ClusterIpServiceChanged_run h c e cv _ Hc He).
    unfold ClusterIp_ports_differ. cbn.
    rewrite Nat.eqb_refl, !deep_equal_refl. eexists. reflexivity.
  - intros h c e cv eps hc Hc Hports He.
    rewrite (LoadBalancerServiceChanged_run h c e cv _ Hc He).
    apply ports_same_but_NodePort in Hports as (Hlen & Hd & _).
    unfold LoadBalancer_ports_differ. cbn.
    fold (Service_Spec_Ports cv).
    rewrite Hlen, Nat.eqb_refl, Hd, !deep_equal_refl. eexists. reflexivity.
  - intros h c e cv n Hc He Hown.
    rewrite (JobConfigChanged_run OwningContourLabel h c e cv _ Hc He).
    unfold Job_differs, owner_label_missing. cbn.
    fold (Job_Labels cv) (Job_Spec_Parallelism cv) (Job_Spec_BackoffLimit cv)
      (Job_Spec_Template_Labels cv) (Job_Spec_Template_Spec cv).
    rewrite !deep_equal_refl.
    destruct Hown as [-> | [x ->]]; cbn; rewrite ?andb_false_r;
      eexists; reflexivity.
Qed.

End EqualSnapshots.

Lemma updated_nil_iff_unchanged_witness :
  let d1 := Sample.daemonset "envoy" (Sample.labels "a" "1") None [] in
  let d2 := Sample.daemonset "envoy" (Sample.labels "a" "2") None [] in
  let j := Sample.job None (Some 1) None in
  let p1 := Sample.deployment "contour" (Sample.labels "a" "1") None [] in
  let p2 := Sample.deployment "contour" (Sample.labels "a" "2") None [] in
  let s1 := Sample.service "ClusterIP" "10.0.0.7" 0 [] in
  let s2 := Sample.service "NodePort" "10.0.0.7" 0 [] in
  (∃ h', DaemonsetConfigChanged (Some 1%positive) (Some 2%positive)
           (Sample.store d1 d2) = Some ((Some 3%positive, true), h'))
  ∧ (∃ h', JobConfigChanged Sample.OwningContourLabel (Some 1%positive)
             (Some 2%positive) (Sample.store j j) = Some ((None, false), h'))
  ∧ (∃ h', DeploymentConfigChanged (Some 1%positive) (Some 2%positive)
             (Sample.store p1 p2) = Some ((Some 2%positive, true), h'))
  ∧ (∃ h', ClusterIpServiceChanged (Some 1%positive) (Some 2%positive)
             (Sample.store s1 s2) = Some ((Some 3%positive, true), h'))
  ∧ (∃ h', LoadBalancerServiceChanged (Some 1%positive) (Some 2%positive)
             (Sample.store s1 s1) = Some ((None, false), h')).
Proof.
  intros d1 d2 j p1 p2 s1 s2.
  destruct (@updated_nil_iff_unchanged (list string) Z _ (list string) Z _
              (list string) Z _ Z Sample.OwningContourLabel)
    as (Hd & Hj & Hp & Hc & Hl).
  split; [|split; [|split; [|split]]].
  - destruct (Hd (Sample.store d1 d2) 1%positive 2%positive d1 d2
                eq_refl eq_refl) as (u & b & h' & Hrun & _).
    pose proof Hrun as Hval. vm_compute in Hval.
    injection Hval as <- <- _. exists h'. exact Hrun.
  - destruct (Hj (Sample.store j j) 1%positive 2%positive j j
                eq_refl eq_refl) as (u & b & h' & Hrun & _).
    pose proof Hrun as Hval. vm_compute in Hval.
    injection Hval as <- <- _. exists h'. exact Hrun.
  - destruct (Hp (Sample.store p1 p2) 1%positive 2%positive p1 p2
                eq_refl eq_refl) as (u & b & h' & Hrun & _).
    pose proof Hrun as Hval. vm_compute in Hval.
    injection Hval as <- <- _. exists h'. exact Hrun.
  - destruct (Hc (Sample.store s1 s2) 1%positive 2%positive s1 s2
                eq_refl eq_refl) as (u & b & h' & Hrun & _).
    pose proof Hrun as Hval. vm_compute in Hval.
    injection Hval as <- <- _. exists h'. exact Hrun.
  - destruct (Hl (Sample.store s1 s1) 1%positive 2%positive s1 s1
                eq_refl eq_refl) as (u & b & h' & Hrun & _).
    pose proof Hrun as Hval. vm_compute in Hval.
    injection Hval as <- <- _. exists h'. exact Hrun.
Defined.

Lemma equal_snapshots_unchanged_witness :
  let d := Sample.daemonset "envoy" (Sample.labels "a" "1") None [] in
  let j := Sample.job None (Some 1)
             (Sample.labels Sample.OwningContourLabel "contour") in
  let p := Sample.deployment "contour" (Sample.labels "a" "1") None [] in
  let s := Sample.service "LoadBalancer" "10.0.0.7" 30000
             [Sample.port "http" 80 8080 31080] in
  (∃ h', DaemonsetConfigChanged (Some 1%positive) (Some 2%positive)
           (Sample.store d d) = Some ((None, false), h'))
  ∧ (∃ h', JobConfigChanged Sample.OwningContourLabel (Some 1%positive)
             (Some 2%positive) (Sample.store j j) = Some ((None, false), h'))
  ∧ (∃ h', DeploymentConfigChanged (Some 1%positive) (Some 2%positive)
             (Sample.store p p) = Some ((None, false), h'))
  ∧ (∃ h', ClusterIpServiceChanged (Some 1%positive) (Some 2%positive)
             (Sample.store s s) = Some ((None, false), h'))
  ∧ (∃ h', LoadBalancerServiceChanged (Some 1%positive) (Some 2%positive)
             (Sample.store s s) = Some ((None, false), h')).
Proof.
  intros d j p s.
  destruct (@equal_snapshots_unchanged (list string) Z _ (list string) Z _
              (list string) Z _ Z _ _ _ Sample.OwningContourLabel)
    as (Hd & Hj & Hp & Hc & Hl).
  split; [|split; [|split; [|split]]].
  - apply (Hd (Sample.store d d) 1%positive 2%positive d); reflexivity.
  - apply (Hj (Sample.store j j) 1%positive 2%positive j);
      [reflexivity | reflexivity | right; eexists; reflexivity].
  - apply (Hp (Sample.store p p) 1%positive 2%positive p); reflexivity.
  - apply (Hc (Sample.store s s) 1%positive 2%positive s); reflexivity.
  - apply (Hl (Sample.store s s) 1%positive 2%positive s); reflexivity.
Defined.

(** C7 fails for the job: on two equal snapshots whose template labels are
    the empty map, [JobConfigChanged] returns [changed = true]. *)
Lemma Job_equal_snapshots_changed :
  let j := Sample.job None (Some 1) (Some ∅) in
  ∃ h',
    JobConfigChanged Sample.OwningContourLabel (Some 1%positive)
      (Some 2%positive) (Sample.store j j)
    = Some ((Some 2%positive, true), h').
Proof. intros j. eexists. vm_compute. reflexivity. Qed.

Lemma system_fields_unchanged_witness :
  let sc := Sample.service "LoadBalancer" "10.0.0.7" 30000
              [Sample.port "http" 80 8080 31080] in
  let se := Sample.service "LoadBalancer" "10.0.0.7" 0
              [Sample.port "http" 80 8080 0] in
  let jc := Sample.job None (Some 1) None in
  let je := Sample.job None None None in
  (∃ h', ClusterIpServiceChanged (Some 1%positive) (Some 2%positive)
           (Sample.store sc (Service_set_ClusterIP "" sc))
         = Some ((None, false), h'))
  ∧ (∃ h', LoadBalancerServiceChanged (Some 1%positive) (Some 2%positive)
             (Sample.store sc se) = Some ((None, false), h'))
  ∧ (∃ h', JobConfigChanged Sample.OwningContourLabel (Some 1%positive)
             (Some 2%positive) (Sample.store jc je)
           = Some ((None, false), h')).
Proof.
  intros sc se jc je.
  destruct (@system_fields_unchanged (list string) Z _ Z _
              Sample.OwningContourLabel)
    as (Hc & Hl & Hj).
  split; [|split].
  - apply (Hc _ 1%positive 2%positive sc ""%string); reflexivity.
  - apply (Hl (Sample.store sc se) 1%positive 2%positive sc
              [Sample.port "http" 80 8080 0] 0);
      [reflexivity | repeat constructor | reflexivity].
  - apply (Hj (Sample.store jc je) 1%positive 2%positive jc None);
      [reflexivity | reflexivity | left; reflexivity].
Defined.

(** C8 fails for the job: two snapshots that differ in the completion count
    only, with the empty map as template labels, give [changed = true]. *)
Lemma Job_Completions_only_changed :
  let jc := Sample.job None (Some 1) (Some ∅) in
  let je := Job_set_Completions (Some 2) jc in
  ∃ h',
    JobConfigChanged Sample.OwningContourLabel (Some 1%positive)
      (Some 2%positive) (Sample.store jc je)
    = Some ((Some 2%positive, true), h').
Proof. intros jc je. eexists. vm_compute. reflexivity. Qed.

(** ** Further properties of the five functions *)

Lemma run_get_nil {T A} (f : T → A) (h : gmap loc T) : get None f h = None.
Proof. reflexivity. Qed.

Lemma run_DeepCopy_get {T A B} (f : T → A) (k : ptr → A → M T B)
    (c : ptr) (h : gmap loc T) :
  (∀ u a h', k u a h' = None) →
  (updated ← DeepCopy c; a ← get c f; k updated a) h = None.
Proof.
  intros Hk. destruct c as [l|]; [|reflexivity].
  rewrite run_bind. destruct (h !! l) as [v|] eqn:Hl.
  - erewrite run_DeepCopy by eassumption.
    rewrite run_bind.
    erewrite run_get
      by (rewrite lookup_insert_ne by (eapply fresh_ne; eassumption);
          eassumption).
    apply Hk.
  - unfold DeepCopy, deref. rewrite run_bind, Hl. reflexivity.
Qed.

Section Edges.
Context {DaemonSetSpec DaemonSetStatus : Type} `{!DeepEqual DaemonSetSpec}.
Context {DeploymentSpec DeploymentStatus : Type} `{!DeepEqual DeploymentSpec}.
Context {PodSpec JobStatus : Type} `{!DeepEqual PodSpec}.
Context {ServiceStatus : Type}.
Variable OwningContourLabel : string.

Abbreviation DaemonSet := (appsv1.DaemonSet DaemonSetSpec DaemonSetStatus).
Abbreviation Deployment := (appsv1.Deployment DeploymentSpec DeploymentStatus).
Abbreviation Job := (batchv1.Job PodSpec JobStatus).
Abbreviation Service := (corev1.Service ServiceStatus).

(** X1.  None of the five functions writes to an object that was in the
    store before the call: on two pointers that are not nil, every location
    allocated before the call holds the same object after it.  The snapshots
    behind [current] and [expected] are among them. *)
Theorem inputs_not_mutated :
  (∀ (h : gmap loc DaemonSet) c e cv ev,
     h !! c = Some cv → h !! e = Some ev →
     ∃ r h', DaemonsetConfigChanged (Some c) (Some e) h = Some (r, h')
             ∧ ∀ l, is_Some (h !! l) → h' !! l = h !! l)
  ∧ (∀ (h : gmap loc Job) c e cv ev,
       h !! c = Some cv → h !! e = Some ev →
       ∃ r h', JobConfigChanged OwningContourLabel (Some c) (Some e) h
               = Some (r, h')
               ∧ ∀ l, is_Some (h !! l) → h' !! l = h !! l)
  ∧ (∀ (h : gmap loc Deployment) c e cv ev,
       h !! c = Some cv → h !! e = Some ev →
       ∃ r h', DeploymentConfigChanged (Some c) (Some e) h = Some (r, h')
               ∧ ∀ l, is_Some (h !! l) → h' !! l = h !! l)
  ∧ (∀ (h : gmap loc Service) c e cv ev,
       h !! c = Some cv → h !! e = Some ev →
       ∃ r h', ClusterIpServiceChanged (Some c) (Some e) h = Some (r, h')
               ∧ ∀ l, is_Some (h !! l) → h' !! l = h !! l)
  ∧ (∀ (h : gmap loc Service) c e cv ev,
       h !! c = Some cv → h !! e = Some ev →
       ∃ r h', LoadBalancerServiceChanged (Some c) (Some e) h = Some (r, h')
               ∧ ∀ l, is_Some (h !! l) → h' !! l = h !! l).
Proof.
  split; [|split; [|split; [|split]]]; intros h c e cv ev Hc He;
    [ rewrite (DaemonsetConfigChanged_run h c e cv ev Hc He)
    | rewrite (JobConfigChanged_run OwningContourLabel h c e cv ev Hc He)
    | rewrite (DeploymentConfigChanged_run h c e cv ev Hc He)
    | rewrite (ClusterIpServiceChanged_run h c e cv ev Hc He)
    | rewrite (LoadBalancerServiceChanged_run h c e cv ev Hc He) ];
    cbv zeta; (do 2 eexists; split; [reflexivity|]);
    intros l [v Hl]; apply lookup_insert_ne; eapply fresh_ne; eassumption.
Qed.

(** X2.  Each of the five functions panics when [current] is nil and when
    [expected] is nil, whatever the other pointer and the store are. *)
Theorem nil_pointer_panics :
  (∀ (h : gmap loc DaemonSet) p,
     DaemonsetConfigChanged None p h = None
     ∧ DaemonsetConfigChanged p None h = None)
  ∧ (∀ (h : gmap loc Job) p,
       JobConfigChanged OwningContourLabel None p h = None
       ∧ JobConfigChanged OwningContourLabel p None h = None)
  ∧ (∀ (h : gmap loc Deployment) p,
       DeploymentConfigChanged None p h = None
       ∧ DeploymentConfigChanged p None h = None)
  ∧ (∀ (h : gmap loc Service) p,
       ClusterIpServiceChanged None p h = None
       ∧ ClusterIpServiceChanged p None h = None)
  ∧ (∀ (h : gmap loc Service) p,
       LoadBalancerServiceChanged None p h = None
       ∧ LoadBalancerServiceChanged p None h = None).
Proof.
  split; [|split; [|split; [|split]]]; intros h p;
    (split; [reflexivity|]);
    unfold DaemonsetConfigChanged, JobConfigChanged, DeploymentConfigChanged,
      ClusterIpServiceChanged, LoadBalancerServiceChanged;
    apply run_DeepCopy_get; intros u a h'; reflexivity.
Qed.

End Edges.

Lemma string_deep_equal_eq (a b : string) : deep_equal a b = true ↔ a = b.
Proof. apply String.eqb_eq. Qed.

Lemma int_deep_equal_eq (a b : Z) : deep_equal a b = true ↔ a = b.
Proof. apply Z.eqb_eq. Qed.

(** What the loop body leaves in a port of [updated] that started as the
    port [p] of [current]: the four compared fields are those of [q]. *)
Lemma patch_port_fields (p q : corev1.ServicePort) :
  patch_port p q p
  = {| corev1.Port_Name := corev1.Port_Name q;
       corev1.Protocol := corev1.Protocol q;
       corev1.AppProtocol := corev1.AppProtocol p;
       corev1.Port := corev1.Port q;
       corev1.TargetPort := corev1.TargetPort q;
       corev1.NodePort := corev1.NodePort p |}.
Proof.
  unfold patch_port. destruct p as [n r a o t d], q as [n' r' a' o' t' d'].
  cbn.
  destruct (deep_equal n n') eqn:Hn, (deep_equal r r') eqn:Hr,
    (deep_equal o o') eqn:Ho, (deep_equal t t') eqn:Ht; cbn;
    try apply string_deep_equal_eq in Hn;
    try apply string_deep_equal_eq in Hr;
    try apply int_deep_equal_eq in Ho;
    try apply IntOrString_deep_equal_eq in Ht;
    subst; reflexivity.
Qed.

Lemma patch_ports_lookup (ps eps : list corev1.ServicePort) i p q :
  ps !! i = Some p → eps !! i = Some q →
  patch_ports ps eps ps !! i = Some (patch_port p q p).
Proof.
  revert eps i. induction ps as [|p' ps IH]; intros [|q' eps] [|i] Hp Hq;
    try discriminate.
  - injection Hp as ->. injection Hq as ->. reflexivity.
  - apply (IH eps i Hp Hq).
Qed.

Lemma length_patch_ports (ps eps : list corev1.ServicePort) :
  length ps = length eps → length (patch_ports ps eps ps) = length ps.
Proof.
  revert eps. induction ps as [|p ps IH]; intros [|q eps] Hlen;
    try discriminate; [reflexivity|].
  cbn [patch_ports length]. rewrite (IH eps) by (injection Hlen; auto).
  reflexivity.
Qed.

Lemma ports_differ_true_iff (ps eps : list corev1.ServicePort) :
  ports_differ ps eps = true
  ↔ ∃ i p q, ps !! i = Some p ∧ eps !! i = Some q ∧ port_differs p q = true.
Proof.
  revert eps. induction ps as [|p ps IH]; intros [|q eps];
    cbn [ports_differ];
    try (split; [discriminate | intros (i & p' & q' & Hp & Hq & _);
                                destruct i; discriminate]).
  rewrite orb_true_iff, IH. split.
  - intros [Hd | (i & p' & q' & Hp & Hq & Hd)].
    + exists 0%nat, p, q. auto.
    + exists (S i), p', q'. auto.
  - intros ([|i] & p' & q' & Hp & Hq & Hd).
    + injection Hp as ->. injection Hq as ->. auto.
    + right. exists i, p', q'. auto.
Qed.

Lemma port_differs_patched (p q : corev1.ServicePort) :
  port_differs (patch_port p q p) q = false.
Proof.
  rewrite patch_port_fields. unfold port_differs. cbn.
  rewrite !deep_equal_refl. reflexivity.
Qed.

Lemma ports_differ_patched (ps eps : list corev1.ServicePort) :
  ports_differ (patch_ports ps eps ps) eps = false.
Proof.
  revert eps. induction ps as [|p ps IH]; intros [|q eps]; try reflexivity.
  cbn [patch_ports ports_differ]. rewrite port_differs_patched, IH.
  reflexivity.
Qed.

Section ServiceFrames.
Context {ServiceStatus : Type}.

Abbreviation Service := (corev1.Service ServiceStatus).
Implicit Types (h : gmap loc Service) (cv ev uv : Service).

(** X3.  [ClusterIpServiceChanged], on any two snapshots: when the result
    is [changed = true], [updated] points to a new object in which the port
    list, the selector, the session affinity and the type are those of
    [expected] where the comparison found them different and those of
    [current] otherwise; the metadata, the status, the cluster IP and every
    other field of the spec are those of [current]. *)
Theorem ClusterIp_updated_fields h c e cv ev :
  h !! c = Some cv → h !! e = Some ev →
  ∃ updated changed h',
    ClusterIpServiceChanged (Some c) (Some e) h
    = Some ((updated, changed), h')
    ∧ (changed = true →
       ∃ u uv,
         updated = Some u ∧ h !! u = None ∧ h' !! u = Some uv
         ∧ corev1.Service_ObjectMeta uv = corev1.Service_ObjectMeta cv
         ∧ corev1.Service_Status uv = corev1.Service_Status cv
         ∧ corev1.ClusterIP (corev1.Service_Spec uv)
           = corev1.ClusterIP (corev1.Service_Spec cv)
         ∧ corev1.ExternalIPs (corev1.Service_Spec uv)
           = corev1.ExternalIPs (corev1.Service_Spec cv)
         ∧ corev1.LoadBalancerIP (corev1.Service_Spec uv)
           = corev1.LoadBalancerIP (corev1.Service_Spec cv)
         ∧ corev1.ExternalName (corev1.Service_Spec uv)
           = corev1.ExternalName (corev1.Service_Spec cv)
         ∧ corev1.ExternalTrafficPolicy (corev1.Service_Spec uv)
           = corev1.ExternalTrafficPolicy (corev1.Service_Spec cv)
         ∧ corev1.HealthCheckNodePort (corev1.Service_Spec uv)
           = corev1.HealthCheckNodePort (corev1.Service_Spec cv)
         ∧ Service_Spec_Ports uv
           = (if Nat.eqb (length (Service_Spec_Ports cv))
                         (length (Service_Spec_Ports ev))
                 && deep_equal (Service_Spec_Ports cv) (Service_Spec_Ports ev)
              then Service_Spec_Ports cv else Service_Spec_Ports ev)
         ∧ Service_Spec_Selector uv
           = (if deep_equal (Service_Spec_Selector cv)
                            (Service_Spec_Selector ev)
              then Service_Spec_Selector cv else Service_Spec_Selector ev)
         ∧ Service_Spec_SessionAffinity uv
           = (if deep_equal (Service_Spec_SessionAffinity cv)
                            (Service_Spec_SessionAffinity ev)
              then Service_Spec_SessionAffinity cv
              else Service_Spec_SessionAffinity ev)
         ∧ Service_Spec_Type uv
           = (if deep_equal (Service_Spec_Type cv) (Service_Spec_Type ev)
              then Service_Spec_Type cv else Service_Spec_Type ev)).
Proof.
  intros Hc He. rewrite (ClusterIpServiceChanged_run h c e cv ev Hc He).
  cbv zeta. do 3 eexists. split; [reflexivity|]. intros Hch.
  do 2 eexists. split.
  { rewrite Hch. reflexivity. }
  split; [apply lookup_fresh|]. split; [apply lookup_insert_eq|].
  unfold ClusterIp_ports_differ.
  destruct (Nat.eqb (length (Service_Spec_Ports cv))
                    (length (Service_Spec_Ports ev))),
    (deep_equal (Service_Spec_Ports cv) (Service_Spec_Ports ev)),
    (deep_equal (Service_Spec_Selector cv) (Service_Spec_Selector ev)),
    (deep_equal (Service_Spec_SessionAffinity cv)
                (Service_Spec_SessionAffinity ev)),
    (deep_equal (Service_Spec_Type cv) (Service_Spec_Type ev));
    cbn; repeat split; reflexivity.
Qed.

(** X4.  [LoadBalancerServiceChanged], on any two snapshots: when the
    result is [changed = true], the metadata, the status, the cluster IP,
    the health check node port and the other fields of the spec that are
    not compared are, in [updated], those of [current]. *)
Theorem LoadBalancer_unassigned_fields h c e cv ev :
  h !! c = Some cv → h !! e = Some ev →
  ∃ updated changed h',
    LoadBalancerServiceChanged (Some c) (Some e) h
    = Some ((updated, changed), h')
    ∧ (changed = true →
       ∃ u uv,
         updated = Some u ∧ h !! u = None ∧ h' !! u = Some uv
         ∧ corev1.Service_ObjectMeta uv = corev1.Service_ObjectMeta cv
         ∧ corev1.Service_Status uv = corev1.Service_Status cv
         ∧ corev1.ClusterIP (corev1.Service_Spec uv)
           = corev1.ClusterIP (corev1.Service_Spec cv)
         ∧ corev1.ExternalIPs (corev1.Service_Spec uv)
           = corev1.ExternalIPs (corev1.Service_Spec cv)
         ∧ corev1.LoadBalancerIP (corev1.Service_Spec uv)
           = corev1.LoadBalancerIP (corev1.Service_Spec cv)
         ∧ corev1.ExternalName (corev1.Service_Spec uv)
           = corev1.ExternalName (corev1.Service_Spec cv)
         ∧ corev1.HealthCheckNodePort (corev1.Service_Spec uv)
           = corev1.HealthCheckNodePort (corev1.Service_Spec cv)).
Proof.
  intros Hc He. rewrite (LoadBalancerServiceChanged_run h c e cv ev Hc He).
  cbv zeta. do 3 eexists. split; [reflexivity|]. intros Hch.
  do 2 eexists. split.
  { rewrite Hch. reflexivity. }
  split; [apply lookup_fresh|]. split; [apply lookup_insert_eq|].
  destruct (deep_equal (Service_Spec_Selector cv) (Service_Spec_Selector ev)),
    (deep_equal (Service_Spec_ExternalTrafficPolicy cv)
                (Service_Spec_ExternalTrafficPolicy ev)),
    (deep_equal (Service_Spec_SessionAffinity cv)
                (Service_Spec_SessionAffinity ev)),
    (deep_equal (Service_Spec_Type cv) (Service_Spec_Type ev));
    cbn; repeat split; reflexivity.
Qed.

(** The port list that [LoadBalancerServiceChanged] leaves in the copy. *)
Lemma LoadBalancer_run_ports h c e cv ev :
  h !! c = Some cv → h !! e = Some ev →
  ∃ updated changed h' uv,
    LoadBalancerServiceChanged (Some c) (Some e) h
    = Some ((updated, changed), h')
    ∧ (changed = true → updated = Some (fresh (dom h)))
    ∧ (LoadBalancer_ports_differ (Service_Spec_Ports cv)
         (Service_Spec_Ports ev) = true → changed = true)
    ∧ h' !! fresh (dom h) = Some uv
    ∧ Service_Spec_Ports uv
      = LoadBalancer_ports (Service_Spec_Ports cv) (Service_Spec_Ports ev).
Proof.
  intros Hc He. rewrite (LoadBalancerServiceChanged_run h c e cv ev Hc He).
  cbv zeta. do 4 eexists. split; [reflexivity|].
  split; [intros ->; reflexivity|].
  split; [intros ->; reflexivity|].
  split; [apply lookup_insert_eq|].
  destruct (deep_equal (Service_Spec_Selector cv) (Service_Spec_Selector ev)),
    (deep_equal (Service_Spec_ExternalTrafficPolicy cv)
                (Service_Spec_ExternalTrafficPolicy ev)),
    (deep_equal (Service_Spec_SessionAffinity cv)
                (Service_Spec_SessionAffinity ev)),
    (deep_equal (Service_Spec_Type cv) (Service_Spec_Type ev));
    reflexivity.
Qed.

(** X5.  [LoadBalancerServiceChanged], when the two port lists have the
    same length and the result is [changed = true]: the port list of
    [updated] has that length, and its port at each index has the name, the
    protocol, the port number and the target port of the port of [expected]
    at that index, and the node port (and application protocol) of the port
    of [current]. *)
Theorem LoadBalancer_equal_count_ports h c e cv ev :
  h !! c = Some cv → h !! e = Some ev →
  length (Service_Spec_Ports cv) = length (Service_Spec_Ports ev) →
  ∃ updated changed h',
    LoadBalancerServiceChanged (Some c) (Some e) h
    = Some ((updated, changed), h')
    ∧ (changed = true →
       ∃ u uv,
         updated = Some u ∧ h' !! u = Some uv
         ∧ length (Service_Spec_Ports uv) = length (Service_Spec_Ports cv)
         ∧ ∀ i p q,
             Service_Spec_Ports cv !! i = Some p →
             Service_Spec_Ports ev !! i = Some q →
             Service_Spec_Ports uv !! i
             = Some {| corev1.Port_Name := corev1.Port_Name q;
                       corev1.Protocol := corev1.Protocol q;
                       corev1.AppProtocol := corev1.AppProtocol p;
                       corev1.Port := corev1.Port q;
                       corev1.TargetPort := corev1.TargetPort q;
                       corev1.NodePort := corev1.NodePort p |}).
Proof.
  intros Hc He Hlen.
  destruct (LoadBalancer_run_ports h c e cv ev Hc He)
    as (updated & changed & h' & uv & Hrun & Hup & _ & Hu & Hports).
  exists updated, changed, h'. split; [exact Hrun|]. intros Hch.
  exists (fresh (dom h)), uv. split; [auto|]. split; [exact Hu|].
  unfold LoadBalancer_ports in Hports.
  rewrite Hlen, Nat.eqb_refl in Hports. cbn [negb] in Hports.
  rewrite Hports. split.
  - apply length_patch_ports. exact Hlen.
  - intros i p q Hp Hq.
    rewrite (patch_ports_lookup _ _ i p q Hp Hq), patch_port_fields.
    reflexivity.
Qed.

(** X6.  [LoadBalancerServiceChanged], when the two port lists differ in
    length: the result is [changed = true] and the port list of [updated] is
    the port list of [expected] as a whole, node ports included. *)
Theorem LoadBalancer_port_count_mismatch h c e cv ev :
  h !! c = Some cv → h !! e = Some ev →
  length (Service_Spec_Ports cv) ≠ length (Service_Spec_Ports ev) →
  ∃ u uv h',
    LoadBalancerServiceChanged (Some c) (Some e) h
    = Some ((Some u, true), h')
    ∧ h !! u = None ∧ h' !! u = Some uv
    ∧ Service_Spec_Ports uv = Service_Spec_Ports ev.
Proof.
  intros Hc He Hlen. apply Nat.eqb_neq in Hlen.
  destruct (LoadBalancer_run_ports h c e cv ev Hc He)
    as (updated & changed & h' & uv & Hrun & Hup & Hdet & Hu & Hports).
  unfold LoadBalancer_ports_differ in Hdet.
  unfold LoadBalancer_ports in Hports.
  rewrite Hlen in Hdet, Hports. cbn [negb] in Hdet, Hports.
  specialize (Hdet eq_refl). subst changed. specialize (Hup eq_refl).
  subst updated.
  exists (fresh (dom h)), uv, h'. split; [exact Hrun|].
  split; [apply lookup_fresh|]. split; [exact Hu | exact Hports].
Qed.

End ServiceFrames.

Section Detection.
Context {DaemonSetSpec DaemonSetStatus : Type} `{!DeepEqual DaemonSetSpec}.
Context {DeploymentSpec DeploymentStatus : Type} `{!DeepEqual DeploymentSpec}.
Context {ServiceStatus : Type}.

Abbreviation DaemonSet := (appsv1.DaemonSet DaemonSetSpec DaemonSetStatus).
Abbreviation Deployment := (appsv1.Deployment DeploymentSpec DeploymentStatus).
Abbreviation Service := (corev1.Service ServiceStatus).

(** X7.  [DaemonsetConfigChanged] and [DeploymentConfigChanged] return
    [changed = true] exactly when the comparison of the labels or of the
    specs fails; [ClusterIpServiceChanged] exactly when the port lists
    differ in length or the comparison of the port lists, the selectors, the
    session affinities or the types fails. *)
Theorem changed_iff_detected :
  (∀ (h : gmap loc DaemonSet) c e cv ev,
     h !! c = Some cv → h !! e = Some ev →
     ∃ updated changed h',
       DaemonsetConfigChanged (Some c) (Some e) h
       = Some ((updated, changed), h')
       ∧ (changed = true
          ↔ deep_equal (DaemonSet_Labels cv) (DaemonSet_Labels ev) = false
            ∨ deep_equal (appsv1.DaemonSet_Spec cv)
                         (appsv1.DaemonSet_Spec ev) = false))
  ∧ (∀ (h : gmap loc Deployment) c e cv ev,
       h !! c = Some cv → h !! e = Some ev →
       ∃ updated changed h',
         DeploymentConfigChanged (Some c) (Some e) h
         = Some ((updated, changed), h')
         ∧ (changed = true
            ↔ deep_equal (Deployment_Labels cv) (Deployment_Labels ev) = false
              ∨ deep_equal (appsv1.Deployment_Spec cv)
                           (appsv1.Deployment_Spec ev) = false))
  ∧ (∀ (h : gmap loc Service) c e cv ev,
       h !! c = Some cv → h !! e = Some ev →
       ∃ updated changed h',
         ClusterIpServiceChanged (Some c) (Some e) h
         = Some ((updated, changed), h')
         ∧ (changed = true
            ↔ length (Service_Spec_Ports cv) ≠ length (Service_Spec_Ports ev)
              ∨ deep_equal (Service_Spec_Ports cv)
                           (Service_Spec_Ports ev) = false
              ∨ deep_equal (Service_Spec_Selector cv)
                           (Service_Spec_Selector ev) = false
              ∨ deep_equal (Service_Spec_SessionAffinity cv)
                           (Service_Spec_SessionAffinity ev) = false
              ∨ deep_equal (Service_Spec_Type cv)
                           (Service_Spec_Type ev) = false)).
Proof.
  split; [|split]; intros h c e cv ev Hc He.
  - rewrite (DaemonsetConfigChanged_run h c e cv ev Hc He). cbv zeta.
    do 3 eexists. split; [reflexivity|].
    rewrite orb_true_iff, !negb_true_iff. reflexivity.
  - rewrite (DeploymentConfigChanged_run h c e cv ev Hc He). cbv zeta.
    do 3 eexists. split; [reflexivity|].
    rewrite orb_true_iff, !negb_true_iff. reflexivity.
  - rewrite (ClusterIpServiceChanged_run h c e cv ev Hc He). cbv zeta.
    do 3 eexists. split; [reflexivity|].
    rewrite !orb_true_iff, !negb_true_iff. unfold ClusterIp_ports_differ.
    destruct (Nat.eqb _ _) eqn:Hlen; cbn [negb].
    + apply Nat.eqb_eq in Hlen. rewrite negb_true_iff. tauto.
    + apply Nat.eqb_neq in Hlen. tauto.
Qed.

(** X8.  [LoadBalancerServiceChanged] returns [changed = true] exactly
    when the port lists differ in length, or two ports at the same index
    fail the comparison of their names, protocols, port numbers or target
    ports, or the comparison of the selectors, the external traffic
    policies, the session affinities or the types fails. *)
Theorem LoadBalancer_changed_iff_detected (h : gmap loc Service) c e cv ev :
  h !! c = Some cv → h !! e = Some ev →
  ∃ updated changed h',
    LoadBalancerServiceChanged (Some c) (Some e) h
    = Some ((updated, changed), h')
    ∧ (changed = true
       ↔ length (Service_Spec_Ports cv) ≠ length (Service_Spec_Ports ev)
         ∨ (∃ i p q,
              Service_Spec_Ports cv !! i = Some p
              ∧ Service_Spec_Ports ev !! i = Some q
              ∧ (deep_equal (corev1.Port_Name p) (corev1.Port_Name q) = false
                 ∨ deep_equal (corev1.Protocol p) (corev1.Protocol q) = false
                 ∨ deep_equal (corev1.Port p) (corev1.Port q) = false
                 ∨ deep_equal (corev1.TargetPort p) (corev1.TargetPort q)
                   = false))
         ∨ deep_equal (Service_Spec_Selector cv)
                      (Service_Spec_Selector ev) = false
         ∨ deep_equal (Service_Spec_ExternalTrafficPolicy cv)
                      (Service_Spec_ExternalTrafficPolicy ev) = false
         ∨ deep_equal (Service_Spec_SessionAffinity cv)
                      (Service_Spec_SessionAffinity ev) = false
         ∨ deep_equal (Service_Spec_Type cv) (Service_Spec_Type ev) = false).
Proof.
  intros Hc He.
  rewrite (LoadBalancerServiceChanged_run h c e cv ev Hc He). cbv zeta.
  do 3 eexists. split; [reflexivity|].
  rewrite !orb_true_iff, !negb_true_iff.
  assert (LoadBalancer_ports_differ (Service_Spec_Ports cv)
            (Service_Spec_Ports ev) = true
          ↔ length (Service_Spec_Ports cv) ≠ length (Service_Spec_Ports ev)
            ∨ ∃ i p q,
                Service_Spec_Ports cv !! i = Some p
                ∧ Service_Spec_Ports ev !! i = Some q
                ∧ (deep_equal (corev1.Port_Name p) (corev1.Port_Name q) = false
                   ∨ deep_equal (corev1.Protocol p) (corev1.Protocol q) = false
                   ∨ deep_equal (corev1.Port p) (corev1.Port q) = false
                   ∨ deep_equal (corev1.TargetPort p) (corev1.TargetPort q)
                     = false)) as ->.
  { assert (∀ p q, port_differs p q = true
              ↔ deep_equal (corev1.Port_Name p) (corev1.Port_Name q) = false
                ∨ deep_equal (corev1.Protocol p) (corev1.Protocol q) = false
                ∨ deep_equal (corev1.Port p) (corev1.Port q) = false
                ∨ deep_equal (corev1.TargetPort p) (corev1.TargetPort q)
                  = false) as Hpd.
    { intros p q. unfold port_differs.
      rewrite !orb_true_iff, !negb_true_iff. tauto. }
    unfold LoadBalancer_ports_differ.
    destruct (Nat.eqb _ _) eqn:Hlen; cbn [negb].
    - apply Nat.eqb_eq in Hlen. rewrite ports_differ_true_iff. split.
      + intros (i & p & q & Hp & Hq & Hd). right. exists i, p, q.
        rewrite <- Hpd. auto.
      + intros [Hne | (i & p & q & Hp & Hq & Hd)]; [contradiction|].
        exists i, p, q. rewrite Hpd. auto.
    - apply Nat.eqb_neq in Hlen. split; auto. }
  tauto.
Qed.

End Detection.

Section SecondRun.
Context {DaemonSetSpec DaemonSetStatus : Type} `{!DeepEqual DaemonSetSpec}.
Context {DeploymentSpec DeploymentStatus : Type} `{!DeepEqual DeploymentSpec}.
Context {PodSpec JobStatus : Type} `{!DeepEqual PodSpec}.
Context {ServiceStatus : Type}.
Context `{!DeepEqualRefl DaemonSetSpec} `{!DeepEqualRefl DeploymentSpec}.
Context `{!DeepEqualRefl PodSpec}.
Variable OwningContourLabel : string.

Abbreviation DaemonSet := (appsv1.DaemonSet DaemonSetSpec DaemonSetStatus).
Abbreviation Deployment := (appsv1.Deployment DeploymentSpec DeploymentStatus).
Abbreviation Job := (batchv1.Job PodSpec JobStatus).
Abbreviation Service := (corev1.Service ServiceStatus).

(** X9.  The snapshot a function returns needs no further update: when a
    call returns a pointer [updated] that is not nil, calling the same
    function on [updated] and [expected], in the store the first call left,
    returns [changed = false].  For [JobConfigChanged] this holds when the
    template labels of [expected] are nil or hold the owning label. *)
Theorem second_run_unchanged :
  (∀ (h : gmap loc DaemonSet) c e cv ev,
     h !! c = Some cv → h !! e = Some ev →
     ∃ updated changed h',
       DaemonsetConfigChanged (Some c) (Some e) h
       = Some ((updated, changed), h')
       ∧ (updated ≠ None →
          ∃ h'', DaemonsetConfigChanged updated (Some e) h'
                 = Some ((None, false), h'')))
  ∧ (∀ (h : gmap loc Job) c e cv ev,
       h !! c = Some cv → h !! e = Some ev →
       is_nil (Job_Spec_Template_Labels ev) = true
       ∨ is_Some (index (Job_Spec_Template_Labels ev) OwningContourLabel) →
       ∃ updated changed h',
         JobConfigChanged OwningContourLabel (Some c) (Some e) h
         = Some ((updated, changed), h')
         ∧ (updated ≠ None →
            ∃ h'', JobConfigChanged OwningContourLabel updated (Some e) h'
                   = Some ((None, false), h'')))
  ∧ (∀ (h : gmap loc Deployment) c e cv ev,
       h !! c = Some cv → h !! e = Some ev →
       ∃ updated changed h',
         DeploymentConfigChanged (Some c) (Some e) h
         = Some ((updated, changed), h')
         ∧ (updated ≠ None →
            ∃ h'', DeploymentConfigChanged updated (Some e) h'
                   = Some ((None, false), h'')))
  ∧ (∀ (h : gmap loc Service) c e cv ev,
       h !! c = Some cv → h !! e = Some ev →
       ∃ updated changed h',
         ClusterIpServiceChanged (Some c) (Some e) h
         = Some ((updated, changed), h')
         ∧ (updated ≠ None →
            ∃ h'', ClusterIpServiceChanged updated (Some e) h'
                   = Some ((None, false), h'')))
  ∧ (∀ (h : gmap loc Service) c e cv ev,
       h !! c = Some cv → h !! e = Some ev →
       ∃ updated changed h',
         LoadBalancerServiceChanged (Some c) (Some e) h
         = Some ((updated, changed), h')
         ∧ (updated ≠ None →
            ∃ h'', LoadBalancerServiceChanged updated (Some e) h'
                   = Some ((None, false), h''))).
Proof.
  split; [|split; [|split; [|split]]].
  - intros h c e cv ev Hc He.
    pose proof (fresh_ne _ _ _ He) as Hue.
    rewrite (DaemonsetConfigChanged_run h c e cv ev Hc He). cbv zeta.
    do 3 eexists. split; [reflexivity|]. intros Hup.
    destruct (negb (deep_equal (DaemonSet_Labels cv) (DaemonSet_Labels ev))
              || negb (deep_equal (appsv1.DaemonSet_Spec cv)
                                  (appsv1.DaemonSet_Spec ev)));
      [|contradiction].
    erewrite DaemonsetConfigChanged_run;
      [ | apply lookup_insert_eq | by rewrite lookup_insert_ne ].
    cbv zeta.
    destruct (deep_equal (DaemonSet_Labels cv) (DaemonSet_Labels ev)) eqn:Hl,
      (deep_equal (appsv1.DaemonSet_Spec cv) (appsv1.DaemonSet_Spec ev))
        eqn:Hs;
      unfold DaemonSet_Labels, DaemonSet_set_Spec, DaemonSet_set_Labels in *;
      cbn in *; rewrite ?Hl, ?Hs, ?deep_equal_refl; eexists; reflexivity.
  - intros h c e cv ev Hc He Hown.
    pose proof (fresh_ne _ _ _ He) as Hue.
    rewrite (JobConfigChanged_run OwningContourLabel h c e cv ev Hc He).
    do 3 eexists. split; [reflexivity|]. intros Hup.
    destruct (Job_differs OwningContourLabel cv ev); [|contradiction].
    erewrite (JobConfigChanged_run OwningContourLabel _ e e ev ev)
      by (rewrite lookup_insert_ne by done; eassumption).
    unfold Job_differs, owner_label_missing. rewrite !deep_equal_refl.
    destruct Hown as [-> | [x ->]]; cbn; rewrite ?andb_false_r;
      eexists; reflexivity.
  - intros h c e cv ev Hc He.
    pose proof (fresh_ne _ _ _ He) as Hue.
    rewrite (DeploymentConfigChanged_run h c e cv ev Hc He). cbv zeta.
    do 3 eexists. split; [reflexivity|]. intros Hup.
    destruct (negb (deep_equal (Deployment_Labels cv) (Deployment_Labels ev))
              || negb (deep_equal (appsv1.Deployment_Spec cv)
                                  (appsv1.Deployment_Spec ev)));
      [|contradiction].
    erewrite (DeploymentConfigChanged_run _ e e ev ev)
      by (rewrite lookup_insert_ne by done; eassumption).
    cbv zeta. rewrite !deep_equal_refl. eexists. reflexivity.
  - intros h c e cv ev Hc He.
    pose proof (fresh_ne _ _ _ He) as Hue.
    rewrite (ClusterIpServiceChanged_run h c e cv ev Hc He). cbv zeta.
    do 3 eexists. split; [reflexivity|]. intros Hup.
    match type of Hup with
    | (if ?d then _ else _) ≠ _ => destruct d; [|contradiction]
    end.
    erewrite ClusterIpServiceChanged_run;
      [ | apply lookup_insert_eq | by rewrite lookup_insert_ne ].
    cbv zeta. unfold ClusterIp_ports_differ.
    destruct (Nat.eqb (length (Service_Spec_Ports cv))
                      (length (Service_Spec_Ports ev))) eqn:Hlen,
      (deep_equal (Service_Spec_Ports cv) (Service_Spec_Ports ev)) eqn:Hp,
      (deep_equal (Service_Spec_Selector cv) (Service_Spec_Selector ev))
        eqn:Hs,
      (deep_equal (Service_Spec_SessionAffinity cv)
                  (Service_Spec_SessionAffinity ev)) eqn:Ha,
      (deep_equal (Service_Spec_Type cv) (Service_Spec_Type ev)) eqn:Ht;
      unfold Service_Spec_Ports, Service_Spec_Selector,
        Service_Spec_SessionAffinity, Service_Spec_Type, Service_set_Ports,
        Service_set_Selector, Service_set_SessionAffinity, Service_set_Type
        in *;
      cbn in *; rewrite ?Hlen, ?Nat.eqb_refl; cbn;
      rewrite ?Hp, ?Hs, ?Ha, ?Ht, ?deep_equal_refl; eexists; reflexivity.
  - intros h c e cv ev Hc He.
    pose proof (fresh_ne _ _ _ He) as Hue.
    rewrite (LoadBalancerServiceChanged_run h c e cv ev Hc He). cbv zeta.
    do 3 eexists. split; [reflexivity|]. intros Hup.
    match type of Hup with
    | (if ?d then _ else _) ≠ _ => destruct d; [|contradiction]
    end.
    erewrite LoadBalancerServiceChanged_run;
      [ | apply lookup_insert_eq | by rewrite lookup_insert_ne ].
    cbv zeta.
    assert (LoadBalancer_ports_differ
              (LoadBalancer_ports (Service_Spec_Ports cv)
                                  (Service_Spec_Ports ev))
              (Service_Spec_Ports ev) = false) as Hports.
    { unfold LoadBalancer_ports_differ, LoadBalancer_ports.
      destruct (Nat.eqb (length (Service_Spec_Ports cv))
                        (length (Service_Spec_Ports ev))) eqn:Hlen; cbn [negb].
      - apply Nat.eqb_eq in Hlen.
        rewrite length_patch_ports, Hlen, Nat.eqb_refl by done.
        apply ports_differ_patched.
      - rewrite Nat.eqb_refl. apply ports_differ_refl. }
    destruct (deep_equal (Service_Spec_Selector cv) (Service_Spec_Selector ev))
        eqn:Hs,
      (deep_equal (Service_Spec_ExternalTrafficPolicy cv)
                  (Service_Spec_ExternalTrafficPolicy ev)) eqn:Hx,
      (deep_equal (Service_Spec_SessionAffinity cv)
                  (Service_Spec_SessionAffinity ev)) eqn:Ha,
      (deep_equal (Service_Spec_Type cv) (Service_Spec_Type ev)) eqn:Ht;
      unfold Service_Spec_Ports, Service_Spec_Selector,
        Service_Spec_ExternalTrafficPolicy,
        Service_Spec_SessionAffinity, Service_Spec_Type, Service_set_Ports,
        Service_set_Selector, Service_set_ExternalTrafficPolicy,
        Service_set_SessionAffinity, Service_set_Type in *;
      cbn in *; rewrite Hports, ?Hs, ?Hx, ?Ha, ?Ht, ?deep_equal_refl;
      eexists; reflexivity.
Qed.

End SecondRun.

Section JobFields.
Context {PodSpec JobStatus : Type} `{!DeepEqual PodSpec}.
Variable OwningContourLabel : string.

Abbreviation Job := (batchv1.Job PodSpec JobStatus).
Implicit Types (h : gmap loc Job) (cv ev : Job).

(** X10.  [JobConfigChanged] does not read the completion count: with
    any completion counts put in [current] and in [expected], the pointer
    and the boolean it returns are the same. *)
Theorem Job_Completions_not_compared h1 h2 c e cv ev n m :
  h1 !! c = Some cv → h1 !! e = Some ev →
  h2 !! c = Some (Job_set_Completions n cv) →
  h2 !! e = Some (Job_set_Completions m ev) →
  ∃ updated changed h1' h2',
    JobConfigChanged OwningContourLabel (Some c) (Some e) h1
    = Some ((updated, changed), h1')
    ∧ JobConfigChanged OwningContourLabel (Some c) (Some e) h2
      = Some ((updated, changed), h2').
Proof.
  intros Hc He Hc2 He2.
  rewrite (JobConfigChanged_run _ h1 c e cv ev Hc He),
    (JobConfigChanged_run _ h2 c e _ _ Hc2 He2).
  do 4 eexists. split; reflexivity.
Qed.

(** X11.  Of the template labels, [JobConfigChanged] reads those of
    [current] only, and only for the owning label: with other template
    labels in [expected], and with other template labels in [current] that
    are nil or hold the owning label as the former ones were or did, the
    pointer and the boolean it returns are the same. *)
Theorem Job_template_labels_owning_label_only h1 h2 c e cv ev tl tl' :
  h1 !! c = Some cv → h1 !! e = Some ev →
  h2 !! c = Some (Job_set_Template_Labels tl cv) →
  h2 !! e = Some (Job_set_Template_Labels tl' ev) →
  is_nil (Job_Spec_Template_Labels cv) = true
  ∨ is_Some (index (Job_Spec_Template_Labels cv) OwningContourLabel) →
  is_nil tl = true ∨ is_Some (index tl OwningContourLabel) →
  ∃ updated changed h1' h2',
    JobConfigChanged OwningContourLabel (Some c) (Some e) h1
    = Some ((updated, changed), h1')
    ∧ JobConfigChanged OwningContourLabel (Some c) (Some e) h2
      = Some ((updated, changed), h2').
Proof.
  intros Hc He Hc2 He2 Hown Hown'.
  rewrite (JobConfigChanged_run _ h1 c e cv ev Hc He),
    (JobConfigChanged_run _ h2 c e _ _ Hc2 He2).
  assert (Job_differs OwningContourLabel (Job_set_Template_Labels tl cv)
            (Job_set_Template_Labels tl' ev)
          = Job_differs OwningContourLabel cv ev) as ->.
  { unfold Job_differs, owner_label_missing. cbn.
    fold (Job_Labels cv) (Job_Labels ev) (Job_Spec_Parallelism cv)
      (Job_Spec_Parallelism ev) (Job_Spec_BackoffLimit cv)
      (Job_Spec_BackoffLimit ev) (Job_Spec_Template_Labels cv)
      (Job_Spec_Template_Spec cv) (Job_Spec_Template_Spec ev).
    destruct Hown as [-> | [x ->]], Hown' as [-> | [y ->]]; cbn;
      rewrite ?andb_false_r; reflexivity. }
  do 4 eexists. split; reflexivity.
Qed.

End JobFields.

(** In a witness: the pointer and the boolean of a run on a concrete store,
    by computation. *)
Ltac settle_run Hrun :=
  let Hval := fresh "Hval" in
  pose proof Hrun as Hval; vm_compute in Hval; injection Hval as <- <- _.

Lemma inputs_not_mutated_witness :
  let d1 := Sample.daemonset "envoy" (Sample.labels "a" "1") None [] in
  let d2 := Sample.daemonset "envoy" (Sample.labels "a" "2") None [] in
  let s1 := Sample.service "LoadBalancer" "10.0.0.7" 30000
              [Sample.port "http" 80 8080 31080] in
  let s2 := Sample.service "LoadBalancer" "" 0
              [Sample.port "http" 80 8081 0] in
  (∃ r h', DaemonsetConfigChanged (Some 1%positive) (Some 2%positive)
             (Sample.store d1 d2) = Some (r, h')
           ∧ h' !! 1%positive = Some d1 ∧ h' !! 2%positive = Some d2)
  ∧ (∃ r h', LoadBalancerServiceChanged (Some 1%positive) (Some 2%positive)
               (Sample.store s1 s2) = Some (r, h')
             ∧ h' !! 1%positive = Some s1 ∧ h' !! 2%positive = Some s2).
Proof.
  intros d1 d2 s1 s2.
  destruct (@inputs_not_mutated (list string) Z _ (list string) Z _
              (list string) Z _ Z Sample.OwningContourLabel)
    as (Hd & _ & _ & _ & Hl).
  split.
  - destruct (Hd (Sample.store d1 d2) 1%positive 2%positive d1 d2
                eq_refl eq_refl) as (r & h' & Hrun & Hkeep).
    exists r, h'. split; [exact Hrun|].
    split; (etransitivity; [apply Hkeep; eexists|]; reflexivity).
  - destruct (Hl (Sample.store s1 s2) 1%positive 2%positive s1 s2
                eq_refl eq_refl) as (r & h' & Hrun & Hkeep).
    exists r, h'. split; [exact Hrun|].
    split; (etransitivity; [apply Hkeep; eexists|]; reflexivity).
Defined.

Lemma ClusterIp_updated_fields_witness :
  let s1 := Sample.service "ClusterIP" "10.0.0.7" 0
              [Sample.port "http" 80 8080 0] in
  let s2 := Sample.service "NodePort" "" 0
              [Sample.port "http" 80 8080 0] in
  ∃ h' uv,
    ClusterIpServiceChanged (Some 1%positive) (Some 2%positive)
      (Sample.store s1 s2) = Some ((Some 3%positive, true), h')
    ∧ h' !! 3%positive = Some uv
    ∧ corev1.ClusterIP (corev1.Service_Spec uv) = "10.0.0.7"%string
    ∧ Service_Spec_Type uv = "NodePort"%string.
Proof.
  intros s1 s2.
  destruct (ClusterIp_updated_fields (Sample.store s1 s2)
              1%positive 2%positive s1 s2 eq_refl eq_refl)
    as (updated & changed & h' & Hrun & Hfields).
  settle_run Hrun.
  destruct (Hfields eq_refl)
    as (u & uv & [= <-] & _ & Hu & _ & _ & Hip & _ & _ & _ & _ & _ & _ & _
        & _ & Hty).
  exists h', uv. split; [exact Hrun|]. split; [exact Hu|].
  split; [exact Hip | exact Hty].
Defined.

Lemma LoadBalancer_unassigned_fields_witness :
  let s1 := Sample.service "LoadBalancer" "10.0.0.7" 30000
              [Sample.port "http" 80 8080 31080] in
  let s2 := Sample.service "LoadBalancer" "" 0
              [Sample.port "http" 80 8081 0] in
  ∃ h' uv,
    LoadBalancerServiceChanged (Some 1%positive) (Some 2%positive)
      (Sample.store s1 s2) = Some ((Some 3%positive, true), h')
    ∧ h' !! 3%positive = Some uv
    ∧ corev1.ClusterIP (corev1.Service_Spec uv) = "10.0.0.7"%string
    ∧ corev1.HealthCheckNodePort (corev1.Service_Spec uv) = 30000.
Proof.
  intros s1 s2.
  destruct (LoadBalancer_unassigned_fields (Sample.store s1 s2)
              1%positive 2%positive s1 s2 eq_refl eq_refl)
    as (updated & changed & h' & Hrun & Hfields).
  settle_run Hrun.
  destruct (Hfields eq_refl)
    as (u & uv & [= <-] & _ & Hu & _ & _ & Hip & _ & _ & _ & Hhc).
  exists h', uv. split; [exact Hrun|]. split; [exact Hu|].
  split; [exact Hip | exact Hhc].
Defined.

Lemma LoadBalancer_equal_count_ports_witness :
  let s1 := Sample.service "LoadBalancer" "10.0.0.7" 30000
              [Sample.port "http" 80 8080 31080] in
  let s2 := Sample.service "LoadBalancer" "" 0
              [Sample.port "web" 81 8081 0] in
  ∃ h' uv,
    LoadBalancerServiceChanged (Some 1%positive) (Some 2%positive)
      (Sample.store s1 s2) = Some ((Some 3%positive, true), h')
    ∧ h' !! 3%positive = Some uv
    ∧ Service_Spec_Ports uv !! 0%nat = Some (Sample.port "web" 81 8081 31080).
Proof.
  intros s1 s2.
  destruct (LoadBalancer_equal_count_ports (Sample.store s1 s2)
              1%positive 2%positive s1 s2 eq_refl eq_refl eq_refl)
    as (updated & changed & h' & Hrun & Hports).
  settle_run Hrun.
  destruct (Hports eq_refl) as (u & uv & [= <-] & Hu & _ & Hport).
  exists h', uv. split; [exact Hrun|]. split; [exact Hu|].
  apply (Hport 0%nat (Sample.port "http" 80 8080 31080)
           (Sample.port "web" 81 8081 0)); reflexivity.
Defined.

Lemma LoadBalancer_port_count_mismatch_witness :
  let s1 := Sample.service "LoadBalancer" "10.0.0.7" 30000
              [Sample.port "http" 80 8080 31080] in
  let s2 := Sample.service "LoadBalancer" "" 0
              [Sample.port "http" 80 8080 0;
               Sample.port "https" 443 8443 0] in
  ∃ h' uv,
    LoadBalancerServiceChanged (Some 1%positive) (Some 2%positive)
      (Sample.store s1 s2) = Some ((Some 3%positive, true), h')
    ∧ h' !! 3%positive = Some uv
    ∧ Service_Spec_Ports uv
      = [Sample.port "http" 80 8080 0; Sample.port "https" 443 8443 0].
Proof.
  intros s1 s2.
  destruct (LoadBalancer_port_count_mismatch (Sample.store s1 s2)
              1%positive 2%positive s1 s2 eq_refl eq_refl
              ltac:(discriminate))
    as (u & uv & h' & Hrun & _ & Hu & Hports).
  assert (u = 3%positive) as ->.
  { vm_compute in Hrun. injection Hrun as <- _. reflexivity. }
  exists h', uv. split; [exact Hrun|]. split; [exact Hu | exact Hports].
Defined.

Lemma changed_iff_detected_witness :
  let d1 := Sample.daemonset "envoy" (Sample.labels "a" "1") None [] in
  let d2 := Sample.daemonset "envoy" (Sample.labels "a" "2") None [] in
  let s := Sample.service "ClusterIP" "10.0.0.7" 0
             [Sample.port "http" 80 8080 0] in
  (∃ updated h',
     DaemonsetConfigChanged (Some 1%positive) (Some 2%positive)
       (Sample.store d1 d2) = Some ((updated, true), h')
     ∧ deep_equal (DaemonSet_Labels d1) (DaemonSet_Labels d2) = false)
  ∧ (∃ updated h',
       ClusterIpServiceChanged (Some 1%positive) (Some 2%positive)
         (Sample.store s s) = Some ((updated, false), h')).
Proof.
  intros d1 d2 s.
  destruct (@changed_iff_detected (list string) Z _ (list string) Z _ Z)
    as (Hd & _ & Hc).
  split.
  - destruct (Hd (Sample.store d1 d2) 1%positive 2%positive d1 d2
                eq_refl eq_refl) as (updated & changed & h' & Hrun & _).
    settle_run Hrun. eexists _, h'. split; [exact Hrun | reflexivity].
  - destruct (Hc (Sample.store s s) 1%positive 2%positive s s
                eq_refl eq_refl) as (updated & changed & h' & Hrun & _).
    settle_run Hrun. eexists _, h'. exact Hrun.
Defined.

Lemma LoadBalancer_changed_iff_detected_witness :
  let s1 := Sample.service "LoadBalancer" "10.0.0.7" 30000
              [Sample.port "http" 80 8080 31080] in
  let s2 := Sample.service "LoadBalancer" "" 0
              [Sample.port "http" 80 8080 0] in
  ∃ updated h',
    LoadBalancerServiceChanged (Some 1%positive) (Some 2%positive)
      (Sample.store s1 s2) = Some ((updated, false), h').
Proof.
  intros s1 s2.
  destruct (LoadBalancer_changed_iff_detected (Sample.store s1 s2)
              1%positive 2%positive s1 s2 eq_refl eq_refl)
    as (updated & changed & h' & Hrun & _).
  settle_run Hrun. eexists _, h'. exact Hrun.
Defined.

Lemma second_run_unchanged_witness :
  let d1 := Sample.daemonset "envoy" (Sample.labels "a" "1") None [] in
  let d2 := Sample.daemonset "envoy" (Sample.labels "a" "2") None
              ["envoy"%string] in
  let s1 := Sample.service "LoadBalancer" "10.0.0.7" 30000
              [Sample.port "http" 80 8080 31080] in
  let s2 := Sample.service "NodePort" "" 0
              [Sample.port "web" 81 8081 0] in
  (∃ h' h'',
     DaemonsetConfigChanged (Some 1%positive) (Some 2%positive)
       (Sample.store d1 d2) = Some ((Some 3%positive, true), h')
     ∧ DaemonsetConfigChanged (Some 3%positive) (Some 2%positive) h'
       = Some ((None, false), h''))
  ∧ (∃ h' h'',
       LoadBalancerServiceChanged (Some 1%positive) (Some 2%positive)
         (Sample.store s1 s2) = Some ((Some 3%positive, true), h')
       ∧ LoadBalancerServiceChanged (Some 3%positive) (Some 2%positive) h'
         = Some ((None, false), h'')).
Proof.
  intros d1 d2 s1 s2.
  destruct (@second_run_unchanged (list string) Z _ (list string) Z _
              (list string) Z _ Z _ _ _ Sample.OwningContourLabel)
    as (Hd & _ & _ & _ & Hl).
  split.
  - destruct (Hd (Sample.store d1 d2) 1%positive 2%positive d1 d2
                eq_refl eq_refl) as (updated & changed & h' & Hrun & Hagain).
    settle_run Hrun.
    destruct (Hagain ltac:(discriminate)) as (h'' & Hrun2).
    exists h', h''. split; [exact Hrun | exact Hrun2].
  - destruct (Hl (Sample.store s1 s2) 1%positive 2%positive s1 s2
                eq_refl eq_refl) as (updated & changed & h' & Hrun & Hagain).
    settle_run Hrun.
    destruct (Hagain ltac:(discriminate)) as (h'' & Hrun2).
    exists h', h''. split; [exact Hrun | exact Hrun2].
Defined.

Lemma Job_Completions_not_compared_witness :
  let jc := Sample.job (Sample.labels "app" "old") (Some 1) None in
  let je := Sample.job (Sample.labels "app" "new") (Some 1) None in
  ∃ h1' h2',
    JobConfigChanged Sample.OwningContourLabel (Some 1%positive)
      (Some 2%positive) (Sample.store jc je)
    = Some ((Some 2%positive, true), h1')
    ∧ JobConfigChanged Sample.OwningContourLabel (Some 1%positive)
        (Some 2%positive)
        (Sample.store (Job_set_Completions (Some 5) jc)
                      (Job_set_Completions None je))
      = Some ((Some 2%positive, true), h2').
Proof.
  intros jc je.
  destruct (Job_Completions_not_compared Sample.OwningContourLabel
              (Sample.store jc je)
              (Sample.store (Job_set_Completions (Some 5) jc)
                            (Job_set_Completions None je))
              1%positive 2%positive jc je (Some 5) None
              eq_refl eq_refl eq_refl eq_refl)
    as (updated & changed & h1' & h2' & Hrun1 & Hrun2).
  settle_run Hrun1. exists h1', h2'. split; [exact Hrun1 | exact Hrun2].
Defined.

Lemma Job_template_labels_owning_label_only_witness :
  let owned := Sample.labels Sample.OwningContourLabel "contour" in
  let generated : StringMap :=
    Some (<["job-name" := "contour-certgen"]>
            {[ Sample.OwningContourLabel := "contour" ]}) in
  let jc := Sample.job None (Some 1) owned in
  let je := Sample.job None (Some 1) owned in
  ∃ h1' h2',
    JobConfigChanged Sample.OwningContourLabel (Some 1%positive)
      (Some 2%positive) (Sample.store jc je) = Some ((None, false), h1')
    ∧ JobConfigChanged Sample.OwningContourLabel (Some 1%positive)
        (Some 2%positive)
        (Sample.store (Job_set_Template_Labels generated jc)
                      (Job_set_Template_Labels (Some ∅) je))
      = Some ((None, false), h2').
Proof.
  intros owned generated jc je.
  destruct (Job_template_labels_owning_label_only Sample.OwningContourLabel
              (Sample.store jc je)
              (Sample.store (Job_set_Template_Labels generated jc)
                            (Job_set_Template_Labels (Some ∅) je))
              1%positive 2%positive jc je generated (Some ∅)
              eq_refl eq_refl eq_refl eq_refl
              (or_intror (ex_intro _ "contour"%string eq_refl))
              (or_intror (ex_intro _ "contour"%string eq_refl)))
    as (updated & changed & h1' & h2' & Hrun1 & Hrun2).
  settle_run Hrun1. exists h1', h2'. split; [exact Hrun1 | exact Hrun2].
Defined.
